(** * TimetableView: normalisation, filtering and grid assembly

    A shallow embedding of [src/pages/TimetableView.tsx]: the row parser and
    the filter pass of [parseSelectedTimetable], the grouping function
    [groupTimetableByDayAndTime], the cell rendering of the weekly table,
    the record loader [loadTimetables] and the two query-string handlers
    [handleBranchChange] and [handleDivisionChange]. *)

From Stdlib Require Import NArith String Ascii List Bool Lia.
From stdpp Require Import base option list gmap.

Import ListNotations.
Local Open Scope N_scope.

(** ** JavaScript strings

    A JavaScript string is a sequence of UTF-16 code units.  Comparison with
    [===] is equality of the sequences. *)

Definition jsstring : Type := list N.

(** A literal of the source, written as a Rocq string of ASCII characters. *)
Definition js (s : string) : jsstring :=
  List.map N_of_ascii (list_ascii_of_string s).

Definition str_eqb (a b : jsstring) : bool := bool_decide (a = b).

(** Truthiness of a string: only the empty string is falsy. *)
Definition truthy (s : jsstring) : bool :=
  match s with
  | [] => false
  | _ :: _ => true
  end.

(** [x || ''] on a cell that may be [undefined]. *)
Definition or_empty (cell : option jsstring) : jsstring :=
  match cell with
  | Some s => s
  | None => []
  end.

(** The code units [String.prototype.trim] strips: ECMAScript's WhiteSpace
    (TAB, VT, FF, ZWNBSP and the space separators) and LineTerminator
    (LF, CR, LS, PS). *)
Definition is_white (c : N) : bool :=
  (c =? 9) || (c =? 10) || (c =? 11) || (c =? 12) || (c =? 13) ||
  (c =? 32) || (c =? 160) || (c =? 5760) ||
  ((8192 <=? c) && (c <=? 8202)) ||
  (c =? 8232) || (c =? 8233) || (c =? 8239) || (c =? 8287) ||
  (c =? 12288) || (c =? 65279).

Fixpoint trimStart (s : jsstring) : jsstring :=
  match s with
  | [] => []
  | c :: rest => if is_white c then trimStart rest else s
  end.

Definition trimEnd (s : jsstring) : jsstring :=
  rev (trimStart (rev s)).

Definition trim (s : jsstring) : jsstring := trimEnd (trimStart s).

(** The code unit of the asterisk. *)
Definition star : N := 42.

(** [s.replace(/\*\*/g, '')]: the global regular expression is matched from
    left to right; each match of two adjacent asterisks is deleted and the
    scan resumes after it. *)
Fixpoint replace_stars (s : jsstring) : jsstring :=
  match s with
  | [] => []
  | a :: tl =>
      match tl with
      | b :: rest =>
          if (a =? star) && (b =? star) then replace_stars rest
          else a :: replace_stars tl
      | [] => [a]
      end
  end.

(** Two adjacent asterisks occur somewhere in the string. *)
Fixpoint has_marker (s : jsstring) : bool :=
  match s with
  | [] => false
  | a :: tl =>
      match tl with
      | b :: _ => ((a =? star) && (b =? star)) || has_marker tl
      | [] => false
      end
  end.

(** ** Data model *)

Record Table : Type := mkTable {
  headers : list jsstring;
  rows : list (list (option jsstring))
}.

(** [interface StoredTimetable].  The [timetable] field is read through
    [selectedTimetable?.timetable], so its absence is represented. *)
Record StoredTimetable : Type := mkStoredTimetable {
  filename : jsstring;
  st_branch : jsstring;
  st_division : jsstring;
  year : jsstring;
  generatedAt : jsstring;
  timetable : option Table
}.

(** [interface TimetableRow]; [division] is the optional field. *)
Record TimetableRow : Type := mkRow {
  day : jsstring;
  time : jsstring;
  division : option jsstring;
  classBatch : jsstring;
  courseName : jsstring;
  faculty : jsstring;
  venue : jsstring
}.

#[global] Instance TimetableRow_eq_dec : EqDecision TimetableRow.
Proof. solve_decision. Defined.

(** ** parseSelectedTimetable *)

(** [row[i]]: a cell that is missing, or present and [undefined]. *)
Definition cell (row : list (option jsstring)) (i : nat) : option jsstring :=
  mjoin (row !! i).

Definition cleanDay (row : list (option jsstring)) : jsstring :=
  trim (replace_stars (or_empty (cell row 0))).

(** The callback of [rows.map]. *)
Definition parseRow (row : list (option jsstring)) : TimetableRow :=
  {| day := cleanDay row;
     time := or_empty (cell row 1);
     division := Some [];
     classBatch := or_empty (cell row 2);
     courseName := or_empty (cell row 3);
     faculty := or_empty (cell row 4);
     venue := or_empty (cell row 5) |}.

(** The callback of [.filter]. *)
Definition keepRow (row : TimetableRow) : bool :=
  truthy (courseName row) &&
  negb (str_eqb (courseName row) (js "LUNCH")) &&
  negb (str_eqb (trim (courseName row)) (js "")) &&
  truthy (day row) &&
  negb (str_eqb (day row) (js "ALL")) &&
  negb (str_eqb (day row) (js "")) &&
  negb (str_eqb (time row) (js "1:00-2:00")).

Definition filterRows (parsed : list TimetableRow) : list TimetableRow :=
  List.filter keepRow parsed.

Definition parseSelectedTimetable (selectedTimetable : option StoredTimetable)
  : list TimetableRow :=
  match selectedTimetable ≫= timetable with
  | None => []
  | Some t => filterRows (List.map parseRow (rows t))
  end.

(** ** The weekly table *)

Definition days : list jsstring :=
  [js "Monday"; js "Tuesday"; js "Wednesday"; js "Thursday"; js "Friday"].

Definition timeSlots : list jsstring :=
  [js "9:00-10:00"; js "10:00-11:00"; js "11:00-12:00"; js "12:00-1:00";
   js "2:00-3:00"; js "3:00-4:00"; js "4:00-5:00"].

(** One line of the dialog's "Multiple Sessions" list:
    [{slot.courseName} - {slot.faculty} ({slot.classBatch})]. *)
Definition sessionLine (slot : TimetableRow) : jsstring * jsstring * jsstring :=
  (courseName slot, faculty slot, classBatch slot).

(** What one body cell of the table shows.  A class cell shows [mainSlot],
    the badge [+n more] when [more = Some n], and in its dialog the lines
    [sessions] under the heading "Multiple Sessions" when present. *)
Inductive CellView : Type :=
| LunchBreak
| FreePeriod
| ClassCell (mainSlot : TimetableRow) (more : option nat)
            (sessions : option (list (jsstring * jsstring * jsstring))).

(** [timetableData.filter(row => row.day === day && row.time === time)]. *)
Definition daySlots (timetableData : list TimetableRow) (d t : jsstring)
  : list TimetableRow :=
  List.filter (fun row => str_eqb (day row) d && str_eqb (time row) t)
              timetableData.

(** The callback of [days.map] inside a table row. *)
Definition renderCell (timetableData : list TimetableRow) (t d : jsstring)
  : CellView :=
  let slots := daySlots timetableData d t in
  if str_eqb t (js "12:00-1:00") then LunchBreak
  else if (length slots =? 0)%nat then FreePeriod
  else match slots !! 0%nat with
       | Some mainSlot =>
           ClassCell mainSlot
             (if (1 <? length slots)%nat then Some (length slots - 1)%nat
              else None)
             (if (1 <? length slots)%nat
              then Some (List.map sessionLine slots) else None)
       | None => FreePeriod
       end.

(** The table body: one row per time slot, one cell per day. *)
Definition renderBody (timetableData : list TimetableRow)
  : list (jsstring * list CellView) :=
  List.map (fun t => (t, List.map (renderCell timetableData t) days))
           timeSlots.

(** The "Total Sessions" figure of the weekly statistics:
    [timetableData.filter(slot => slot.courseName && slot.courseName !== '').length]. *)
Definition totalSessions (timetableData : list TimetableRow) : nat :=
  length (List.filter
            (fun slot => truthy (courseName slot) &&
                         negb (str_eqb (courseName slot) (js "")))
            timetableData).

(** The cell shows a class. *)
Definition is_class (c : CellView) : bool :=
  match c with
  | ClassCell _ _ _ => true
  | _ => false
  end.

(** ** groupTimetableByDayAndTime

    [grouped] and the objects under its day keys are object literals, so a
    read [o[k]] that finds no own property [k] goes on to [Object.prototype].
    The model keeps the own properties of [grouped] and of the objects under
    its day keys, and the array-valued properties the function itself adds to
    [Object.prototype] when [row.day] is "__proto__"; those stay behind when
    the call is over and are there at the next call. *)

(** The function-valued properties of [Object.prototype]. *)
Definition objectPrototypeMethods : list jsstring :=
  [js "constructor"; js "hasOwnProperty"; js "isPrototypeOf";
   js "propertyIsEnumerable"; js "toLocaleString"; js "toString";
   js "valueOf"; js "__defineGetter__"; js "__defineSetter__";
   js "__lookupGetter__"; js "__lookupSetter__"].

Definition inherited_method (k : jsstring) : bool :=
  existsb (str_eqb k) objectPrototypeMethods.

(** [own_index]: the own properties of [grouped], each an object with own
    properties of its own.  [prototype_arrays]: the arrays added to
    [Object.prototype]; every object of the index inherits them, so they are
    shared by all days. *)
Record GroupHeap : Type := mkGroupHeap {
  own_index : gmap jsstring (gmap jsstring (list TimetableRow));
  prototype_arrays : gmap jsstring (list TimetableRow)
}.

(** How the function ends: it returns; it throws a TypeError, leaving
    [Object.prototype] as it is at that point; or a row reads a built-in
    function or an array as [grouped[row.day]], after which the statements
    act on that object, whose properties are not part of this model. *)
Inductive Completion : Type :=
| Normal (h : GroupHeap)
| TypeError (prototype : gmap jsstring (list TimetableRow))
| Foreign.

(** The value of [grouped[row.day]]. *)
Inductive DayValue : Type :=
| InnerObject (inner : gmap jsstring (list TimetableRow))
| ThePrototype
| ForeignObject
| DayUndefined.

Definition read_day (h : GroupHeap) (d : jsstring) : DayValue :=
  match own_index h !! d with
  | Some inner => InnerObject inner
  | None =>
      if str_eqb d (js "__proto__") then ThePrototype
      else match prototype_arrays h !! d with
           | Some _ => ForeignObject
           | None => if inherited_method d then ForeignObject
                     else DayUndefined
           end
  end.

(** The two statements on [grouped[row.day][row.time]] when [grouped[row.day]]
    is the object [inner] under the own key [d].  An own array is pushed to.
    Otherwise the read is answered by [Object.prototype]: "__proto__" gives
    the prototype itself and a method name gives a function, both truthy and
    without a callable [push]; a name added earlier gives the shared array,
    which is pushed to; any other name gives [undefined], and the assignment
    makes an own array. *)
Definition fill_inner (h : GroupHeap) (d : jsstring)
    (inner : gmap jsstring (list TimetableRow)) (row : TimetableRow)
  : Completion :=
  match inner !! time row with
  | Some slot =>
      Normal {| own_index :=
                  <[d := <[time row := slot ++ [row]]> inner]> (own_index h);
                prototype_arrays := prototype_arrays h |}
  | None =>
      if str_eqb (time row) (js "__proto__")
      then TypeError (prototype_arrays h)
      else match prototype_arrays h !! time row with
           | Some slot =>
               Normal {| own_index := own_index h;
                         prototype_arrays :=
                           <[time row := slot ++ [row]]> (prototype_arrays h) |}
           | None =>
               if inherited_method (time row)
               then TypeError (prototype_arrays h)
               else Normal {| own_index :=
                                <[d := <[time row := [] ++ [row]]> inner]>
                                  (own_index h);
                              prototype_arrays := prototype_arrays h |}
           end
  end.

(** The same two statements when [grouped[row.day]] is [Object.prototype].
    Its "__proto__" reads as [null], and the assignment of an array to it is
    refused with a TypeError. *)
Definition fill_prototype (h : GroupHeap) (row : TimetableRow) : Completion :=
  if str_eqb (time row) (js "__proto__") then TypeError (prototype_arrays h)
  else match prototype_arrays h !! time row with
       | Some slot =>
           Normal {| own_index := own_index h;
                     prototype_arrays :=
                       <[time row := slot ++ [row]]> (prototype_arrays h) |}
       | None =>
           if inherited_method (time row) then TypeError (prototype_arrays h)
           else Normal {| own_index := own_index h;
                          prototype_arrays :=
                            <[time row := [] ++ [row]]> (prototype_arrays h) |}
       end.

(** The callback of [timetableData.forEach]. *)
Definition group_row (h : GroupHeap) (row : TimetableRow) : Completion :=
  match read_day h (day row) with
  | DayUndefined =>
      fill_inner {| own_index := <[day row := ∅]> (own_index h);
                    prototype_arrays := prototype_arrays h |}
                 (day row) ∅ row
  | InnerObject inner => fill_inner h (day row) inner row
  | ThePrototype => fill_prototype h row
  | ForeignObject => Foreign
  end.

Fixpoint group_rows (timetableData : list TimetableRow) (h : GroupHeap)
  : Completion :=
  match timetableData with
  | [] => Normal h
  | row :: rest =>
      match group_row h row with
      | Normal h' => group_rows rest h'
      | TypeError prototype => TypeError prototype
      | Foreign => Foreign
      end
  end.

(** [prototype]: the arrays earlier calls left on [Object.prototype], none on
    a fresh page. *)
Definition groupTimetableByDayAndTime
    (prototype : gmap jsstring (list TimetableRow))
    (timetableData : list TimetableRow) : Completion :=
  group_rows timetableData {| own_index := ∅; prototype_arrays := prototype |}.

(** The array [grouped[d][t]] evaluates to on the returned object, when
    [grouped[d]] is an object of the index. *)
Definition read_cell (h : GroupHeap) (d t : jsstring)
  : option (list TimetableRow) :=
  match own_index h !! d with
  | Some inner =>
      match inner !! t with
      | Some slot => Some slot
      | None => if str_eqb t (js "__proto__") then None
                else prototype_arrays h !! t
      end
  | None => None
  end.

(** A key that [Object.prototype] does not answer. *)
Definition plain_key (prototype : gmap jsstring (list TimetableRow))
    (k : jsstring) : bool :=
  negb (str_eqb k (js "__proto__")) && negb (inherited_method k) &&
  bool_decide (prototype !! k = None).

(** Every own cell of the object holds entries of the data with the day and
    the time of its keys, and at least one; every own day key is the day of
    an entry. *)
Definition own_cells_sound (timetableData : list TimetableRow)
    (h : GroupHeap) : Prop :=
  forall d inner,
    own_index h !! d = Some inner ->
    (exists e, In e timetableData /\ day e = d) /\
    forall t slot,
      inner !! t = Some slot ->
      slot <> [] /\
      forall e, In e slot -> In e timetableData /\ day e = d /\ time e = t.

(** *** The grouping the specification describes

    The index by exact equality of day and time, each group in the order of
    the rows, as a finite map from days to finite maps from times. *)

Definition index_step
    (grouped : gmap jsstring (gmap jsstring (list TimetableRow)))
    (row : TimetableRow)
  : gmap jsstring (gmap jsstring (list TimetableRow)) :=
  let grouped1 :=
    match grouped !! day row with
    | None => <[day row := ∅]> grouped
    | Some _ => grouped
    end in
  let inner := default ∅ (grouped1 !! day row) in
  let inner1 :=
    match inner !! time row with
    | None => <[time row := []]> inner
    | Some _ => inner
    end in
  let slot := default [] (inner1 !! time row) in
  <[day row := <[time row := slot ++ [row]]> inner1]> grouped1.

Definition weeklyGrid (timetableData : list TimetableRow)
  : gmap jsstring (gmap jsstring (list TimetableRow)) :=
  fold_left index_step timetableData ∅.

(** The sequence under a pair of keys, empty when a key is absent. *)
Definition grid_cell (grouped : gmap jsstring (gmap jsstring (list TimetableRow)))
    (d t : jsstring) : list TimetableRow :=
  default [] (grouped !! d ≫= fun inner => inner !! t).

(** Every key of the index holds at least one entry. *)
Definition cells_nonempty
    (grouped : gmap jsstring (gmap jsstring (list TimetableRow))) : Prop :=
  forall d inner t l,
    grouped !! d = Some inner -> inner !! t = Some l -> l <> [].

(** ** loadTimetables *)

Record Toast : Type := mkToast {
  title : jsstring;
  description : jsstring;
  variant : jsstring
}.

(** The component state the loader writes, with the notices it raised. *)
Record ViewState : Type := mkViewState {
  timetables : list StoredTimetable;
  selectedTimetable : option StoredTimetable;
  toasts : list Toast
}.

(** The object [DataImportService.getStoredTimetables] resolves to. *)
Record ApiResult : Type := mkApiResult {
  success : bool;
  data : list StoredTimetable;
  error : option jsstring
}.

(** How the awaited call ends: it resolves, or it rejects and control goes to
    the [catch] block. *)
Inductive Outcome : Type :=
| Resolved (result : ApiResult)
| Rejected.

Module Eff.

(** State passing over [ViewState]. *)
Definition M (A : Type) : Type := ViewState -> A * ViewState.

Definition ret {A} (a : A) : M A := fun s => (a, s).

Definition bind {A B} (m : M A) (k : A -> M B) : M B :=
  fun s => let (a, s') := m s in k a s'.

Definition run {A} (m : M A) (s : ViewState) : ViewState := snd (m s).

Definition setTimetables (v : list StoredTimetable) : M unit :=
  fun s => (tt, {| timetables := v;
                   selectedTimetable := selectedTimetable s;
                   toasts := toasts s |}).

Definition setSelectedTimetable (v : option StoredTimetable) : M unit :=
  fun s => (tt, {| timetables := timetables s;
                   selectedTimetable := v;
                   toasts := toasts s |}).

Definition toast (t : Toast) : M unit :=
  fun s => (tt, {| timetables := timetables s;
                   selectedTimetable := selectedTimetable s;
                   toasts := toasts s ++ [t] |}).

End Eff.

Declare Scope eff_scope.
Delimit Scope eff_scope with eff.
Notation "m1 ;; m2" := (Eff.bind m1 (fun _ => m2))
  (at level 100, m2 at level 200, right associativity) : eff_scope.

(** [result.error || "Failed to load timetables"]. *)
Definition error_or_default (e : option jsstring) : jsstring :=
  if truthy (or_empty e) then or_empty e else js "Failed to load timetables".

Definition loadTimetables (outcome : Outcome) : Eff.M unit :=
  match outcome with
  | Resolved result =>
      if success result then
        (Eff.setTimetables (data result) ;;
         if (0 <? length (data result))%nat
         then Eff.setSelectedTimetable (data result !! 0%nat)
         else Eff.setSelectedTimetable None)%eff
      else
        Eff.toast {| title := js "Error";
                     description := error_or_default (error result);
                     variant := js "destructive" |}
  | Rejected =>
      Eff.toast {| title := js "Error";
                   description := js "Failed to load timetables";
                   variant := js "destructive" |}
  end.

(** ** Query parameters

    A [URLSearchParams] object is an ordered list of name-value pairs in which
    a name may occur more than once.  Names and values are taken to be
    well-formed strings (no unpaired surrogate), which the interface stores
    as they are given. *)

Module URLSearchParams.

Definition t : Type := list (jsstring * jsstring).

(** [new URLSearchParams(p.toString())]: serialising and parsing again
    gives the same list of pairs. *)
Definition copy (p : t) : t := p.

(** [get]: the value of the first pair with the name, else [null]. *)
Fixpoint get (name : jsstring) (p : t) : option jsstring :=
  match p with
  | [] => None
  | (n, v) :: rest => if str_eqb n name then Some v else get name rest
  end.

(** [getAll]: the values of all pairs with the name, in order. *)
Definition getAll (name : jsstring) (p : t) : list jsstring :=
  List.map snd (List.filter (fun nv => str_eqb (fst nv) name) p).

Definition has (name : jsstring) (p : t) : bool :=
  existsb (fun nv => str_eqb (fst nv) name) p.

(** [delete]: removes every pair with the name. *)
Definition delete (name : jsstring) (p : t) : t :=
  List.filter (fun nv => negb (str_eqb (fst nv) name)) p.

(** [set]: overwrites the first pair with the name and removes the others;
    appends a pair when there is none. *)
Fixpoint set (name value : jsstring) (p : t) : t :=
  match p with
  | [] => [(name, value)]
  | (n, v) :: rest =>
      if str_eqb n name then (n, value) :: delete name rest
      else (n, v) :: set name value rest
  end.

End URLSearchParams.

(** The handlers return the parameters they pass to [setSearchParams], which
    become the next [searchParams]. *)
Definition handleBranchChange (newBranch : jsstring)
    (searchParams : URLSearchParams.t) : URLSearchParams.t :=
  let params := URLSearchParams.copy searchParams in
  if str_eqb newBranch (js "all")
  then URLSearchParams.delete (js "branch") params
  else URLSearchParams.set (js "branch") newBranch params.

Definition handleDivisionChange (newDivision : jsstring)
    (searchParams : URLSearchParams.t) : URLSearchParams.t :=
  let params := URLSearchParams.copy searchParams in
  if str_eqb newDivision (js "all")
  then URLSearchParams.delete (js "division") params
  else URLSearchParams.set (js "division") newDivision params.

(** The shape the two handlers share, for the key [name]. *)
Definition update_key (name newValue : jsstring)
    (searchParams : URLSearchParams.t) : URLSearchParams.t :=
  if str_eqb newValue (js "all")
  then URLSearchParams.delete name searchParams
  else URLSearchParams.set name newValue searchParams.

(** [searchParams.get(name) || 'all'], the value the selects display. *)
Definition current_filter (name : jsstring) (searchParams : URLSearchParams.t)
  : jsstring :=
  if truthy (or_empty (URLSearchParams.get name searchParams))
  then or_empty (URLSearchParams.get name searchParams)
  else js "all".

(** The field each column of a raw row feeds:
    [0]=day, [1]=time, [2]=classBatch, [3]=courseName, [4]=faculty,
    [5]=venue. *)
Definition column (i : nat) (e : TimetableRow) : jsstring :=
  match i with
  | 0%nat => day e
  | 1%nat => time e
  | 2%nat => classBatch e
  | 3%nat => courseName e
  | 4%nat => faculty e
  | 5%nat => venue e
  | _ => []
  end.

(** The cell is missing from the row, or present and [undefined]. *)
Definition absent (row : list (option jsstring)) (i : nat) : Prop :=
  row !! i = None \/ row !! i = Some None.

(** ** Sample inputs *)

(** A raw row whose cells are all present. *)
Definition raw (cells : list string) : list (option jsstring) :=
  List.map (fun c => Some (js c)) cells.

(** A stored record with the given rows. *)
Definition stored (name : string) (rs : list (list (option jsstring)))
  : StoredTimetable :=
  {| filename := js name;
     st_branch := js "CS";
     st_division := js "A";
     year := js "2";
     generatedAt := js "2024-01-01T00:00:00.000Z";
     timetable := Some {| headers := []; rows := rs |} |}.

Definition row_monday : list (option jsstring) :=
  raw ["**Monday**"; "9:00-10:00"; "B1"; "Data Structures"; "Dr. Rao";
       "Room 101"]%string.

Definition row_lunch : list (option jsstring) :=
  raw ["ALL"; "1:00-2:00"; ""; "LUNCH"; ""; ""]%string.

Definition row_noon : list (option jsstring) :=
  raw ["Monday"; "12:00-1:00"; "B1"; "Maths"; "Dr. Rao"; "Room 101"]%string.

Definition row_saturday : list (option jsstring) :=
  raw ["Saturday"; "9:00-10:00"; "B1"; "Maths"; "Dr. Rao"; "Room 101"]%string.

Definition row_first : list (option jsstring) :=
  raw ["Monday"; "10:00-11:00"; "B1"; "Maths"; "Dr. Rao"; "Room 101"]%string.

Definition row_second : list (option jsstring) :=
  raw ["Monday"; "10:00-11:00"; "B2"; "Physics"; "Dr. Iyer"; "Lab 2"]%string.

Definition row_constructor : list (option jsstring) :=
  raw ["Monday"; "constructor"; "B1"; "Maths"; "Dr. Rao"; "Room 101"]%string.

Definition row_proto : list (option jsstring) :=
  raw ["__proto__"; "9:00-10:00"; "B1"; "Maths"; "Dr. Rao"; "Room 101"]%string.

Definition row_nine : list (option jsstring) :=
  raw ["Monday"; "9:00-10:00"; "B2"; "Physics"; "Dr. Iyer"; "Lab 2"]%string.

(** ** The page around the table *)

(** [x || undefined] on a string. *)
Definition or_undefined (s : jsstring) : option jsstring :=
  if truthy s then Some s else None.

(** The two arguments of [DataImportService.getStoredTimetables] in
    [loadTimetables]: [branch || undefined] and [division || undefined],
    where [branch] and [division] are the values read from the query. *)
Definition fetchArguments (searchParams : URLSearchParams.t)
  : option jsstring * option jsstring :=
  (or_undefined (current_filter (js "branch") searchParams),
   or_undefined (current_filter (js "division") searchParams)).

(** The guard [if (branch || division)] of the effect that reloads the
    timetables, also the test of the message of the empty page. *)
Definition filterChosen (searchParams : URLSearchParams.t) : bool :=
  truthy (current_filter (js "branch") searchParams) ||
  truthy (current_filter (js "division") searchParams).

(** The message under "No Timetables Found". *)
Definition emptyMessage (searchParams : URLSearchParams.t) : jsstring :=
  if filterChosen searchParams
  then js "No timetables have been generated for the selected filters yet."
  else js "No timetables have been generated yet. Upload data and generate timetables first.".

(** [new Set(values).size]: the number of distinct strings. *)
Definition distinct (values : list jsstring) : nat :=
  size (list_to_set values : gset jsstring).

(** [timetableData.map(field).filter(x => x && x !== '')]. *)
Definition nonEmptyValues (field : TimetableRow -> jsstring)
    (timetableData : list TimetableRow) : list jsstring :=
  List.filter (fun x => truthy x && negb (str_eqb x (js "")))
              (List.map field timetableData).

(** The four figures of the card "Weekly Statistics". *)
Record Statistics : Type := mkStatistics {
  sessions_total : nat;
  uniqueCourses : nat;
  facultyMembers : nat;
  venuesUsed : nat
}.

Definition weeklyStatistics (timetableData : list TimetableRow) : Statistics :=
  {| sessions_total := totalSessions timetableData;
     uniqueCourses := distinct (nonEmptyValues courseName timetableData);
     facultyMembers := distinct (nonEmptyValues faculty timetableData);
     venuesUsed := distinct (nonEmptyValues venue timetableData) |}.

(** A card of "Available Timetables" has the border of the selection when
    [selectedTimetable?.filename === timetable.filename]. *)
Definition cardSelected (selected : option StoredTimetable)
    (card : StoredTimetable) : bool :=
  match selected with
  | Some s => str_eqb (filename s) (filename card)
  | None => false
  end.

(** The whole component state. *)
Record PageState : Type := mkPageState {
  view : ViewState;
  isLoading : bool;
  availableBranches : list jsstring;
  availableDivisions : list jsstring
}.

(** The state of the first render. *)
Definition initialState : PageState :=
  {| view := {| timetables := []; selectedTimetable := None; toasts := [] |};
     isLoading := true;
     availableBranches := [];
     availableDivisions := [] |}.

Definition onView (f : ViewState -> ViewState) (s : PageState) : PageState :=
  {| view := f (view s);
     isLoading := isLoading s;
     availableBranches := availableBranches s;
     availableDivisions := availableDivisions s |}.

Definition setIsLoading (b : bool) (s : PageState) : PageState :=
  {| view := view s;
     isLoading := b;
     availableBranches := availableBranches s;
     availableDivisions := availableDivisions s |}.

Definition setAvailableBranches (v : list jsstring) (s : PageState)
  : PageState :=
  {| view := view s;
     isLoading := isLoading s;
     availableBranches := v;
     availableDivisions := availableDivisions s |}.

Definition setAvailableDivisions (v : list jsstring) (s : PageState)
  : PageState :=
  {| view := view s;
     isLoading := isLoading s;
     availableBranches := availableBranches s;
     availableDivisions := v |}.

(** The object [DataImportService.getBranchesAndDivisions] resolves to; the
    two lists of [data] may be missing. *)
Record OptionsResult : Type := mkOptionsResult {
  options_success : bool;
  branches : option (list jsstring);
  divisions : option (list jsstring)
}.

Inductive OptionsOutcome : Type :=
| OptionsResolved (optionsResult : OptionsResult)
| OptionsRejected.

(** [loadInitialData].  [loadTimetables] handles its own failures, so the
    [catch] block is reached only when the call for the options rejects;
    the [finally] block runs on both paths. *)
Definition loadInitialData (options : OptionsOutcome) (records : Outcome)
    (s : PageState) : PageState :=
  let s1 := setIsLoading true s in
  let s2 :=
    match options with
    | OptionsResolved optionsResult =>
        let s' :=
          if options_success optionsResult then
            setAvailableDivisions (default [] (divisions optionsResult))
              (setAvailableBranches (default [] (branches optionsResult)) s1)
          else s1 in
        onView (Eff.run (loadTimetables records)) s'
    | OptionsRejected =>
        onView (Eff.run (Eff.toast {| title := js "Error";
                                      description := js "Failed to load data";
                                      variant := js "destructive" |})) s1
    end in
  setIsLoading false s2.

(** What the user and the environment do to the page once it is mounted. *)
Inductive Event : Type :=
| Reload (records : Outcome)
| ClickCard (index : nat)
| InitialLoad (options : OptionsOutcome) (records : Outcome).

(** [onClick={() => setSelectedTimetable(timetable)}] on the card at
    [index]; there is a card for each index of [timetables] only. *)
Definition clickCard (index : nat) (s : ViewState) : ViewState :=
  match timetables s !! index with
  | Some timetable => Eff.run (Eff.setSelectedTimetable (Some timetable)) s
  | None => s
  end.

Definition step (s : PageState) (ev : Event) : PageState :=
  match ev with
  | Reload records => onView (Eff.run (loadTimetables records)) s
  | ClickCard index => onView (clickCard index) s
  | InitialLoad options records => loadInitialData options records s
  end.

Definition run_events (evs : list Event) (s : PageState) : PageState :=
  fold_left step evs s.

(** The parts of the page that depend on the state. *)
Inductive PageView : Type :=
| Spinner
| NoTimetables (message : jsstring)
| Content (cards : option (list bool))
          (table : option (list (jsstring * list CellView)))
          (statistics : option Statistics).

Definition renderPage (searchParams : URLSearchParams.t) (s : PageState)
  : PageView :=
  if isLoading s then Spinner
  else
    let timetableData := parseSelectedTimetable (selectedTimetable (view s)) in
    if (length (timetables (view s)) =? 0)%nat
    then NoTimetables (emptyMessage searchParams)
    else
      Content
        (if (1 <? length (timetables (view s)))%nat
         then Some (List.map (cardSelected (selectedTimetable (view s)))
                             (timetables (view s)))
         else None)
        (match selectedTimetable (view s) with
         | Some _ => Some (renderBody timetableData)
         | None => None
         end)
        (match selectedTimetable (view s) with
         | Some _ =>
             if (0 <? length timetableData)%nat
             then Some (weeklyStatistics timetableData)
             else None
         | None => None
         end).


(** ** Measures of the table *)

(** The entry has a cell of its own in the table: its day is one of the five
    columns and its time one of the slots other than the lunch slot. *)
Definition in_grid (e : TimetableRow) : bool :=
  existsb (str_eqb (day e)) days &&
  existsb (str_eqb (time e)) timeSlots &&
  negb (str_eqb (time e) (js "12:00-1:00")).

(** The number of entries a cell stands for: the one it shows and those its
    badge counts. *)
Definition entries_shown (c : CellView) : nat :=
  match c with
  | ClassCell _ more _ => S (default 0%nat more)
  | _ => 0%nat
  end.

(** The number of entries the whole table stands for. *)
Definition table_entries (body : list (jsstring * list CellView)) : nat :=
  list_sum (List.map (fun r => list_sum (List.map entries_shown (snd r))) body).

(** * Properties *)

(** ** Strings *)

Lemma str_eqb_eq (a b : jsstring) : str_eqb a b = true <-> a = b.
Proof. unfold str_eqb. apply bool_decide_eq_true. Qed.

Lemma str_eqb_neq (a b : jsstring) : str_eqb a b = false <-> a <> b.
Proof. unfold str_eqb. apply bool_decide_eq_false. Qed.

Lemma truthy_nonempty (s : jsstring) : truthy s = true <-> s <> [].
Proof. destruct s; simpl; split; congruence. Qed.

(** Induction that follows the two-step scan of [replace_stars]. *)
Lemma scan_ind (P : jsstring -> Prop) :
  P [] ->
  (forall a, P [a]) ->
  (forall a b l, P l -> P (b :: l) -> P (a :: b :: l)) ->
  forall s, P s.
Proof.
  intros Hnil Hone Hstep s.
  assert (H : P s /\ forall a, P (a :: s)); [| apply H].
  induction s as [| b l [IHl IHbl]]; split; auto.
Qed.

Lemma replace_stars_step (a b : N) (l : jsstring) :
  replace_stars (a :: b :: l) =
  if (a =? star) && (b =? star) then replace_stars l
  else a :: replace_stars (b :: l).
Proof. reflexivity. Qed.

Lemma has_marker_step (a b : N) (l : jsstring) :
  has_marker (a :: b :: l) =
  ((a =? star) && (b =? star)) || has_marker (b :: l).
Proof. reflexivity. Qed.

Lemma replace_stars_keep (a : N) (s : jsstring) :
  (a =? star) = false -> replace_stars (a :: s) = a :: replace_stars s.
Proof.
  intros Ha. destruct s as [| b l]; [reflexivity |].
  now rewrite replace_stars_step, Ha.
Qed.

Lemma replace_stars_no_marker (s : jsstring) :
  has_marker (replace_stars s) = false.
Proof.
  induction s as [| a | a b l IHl IHbl] using scan_ind; try reflexivity.
  rewrite replace_stars_step.
  destruct (a =? star) eqn:Ha, (b =? star) eqn:Hb; cbn [andb].
  - exact IHl.
  - rewrite (replace_stars_keep b l Hb) in *.
    now rewrite has_marker_step, Hb, andb_false_r, IHbl.
  - destruct (replace_stars (b :: l)) as [| c r]; [reflexivity |].
    now rewrite has_marker_step, Ha, IHbl.
  - destruct (replace_stars (b :: l)) as [| c r]; [reflexivity |].
    now rewrite has_marker_step, Ha, IHbl.
Qed.

Lemma replace_stars_id (s : jsstring) :
  has_marker s = false -> replace_stars s = s.
Proof.
  induction s as [| a | a b l IHl IHbl] using scan_ind; try reflexivity.
  rewrite has_marker_step, replace_stars_step.
  intros H. apply orb_false_iff in H as [H1 H2].
  rewrite H1. f_equal. auto.
Qed.

Lemma filter_cons_congr {A} (f : A -> bool) (x : A) (l1 l2 : list A) :
  List.filter f l1 = List.filter f l2 ->
  List.filter f (x :: l1) = List.filter f (x :: l2).
Proof. intros E. simpl. now rewrite E. Qed.

Lemma replace_stars_others (s : jsstring) :
  List.filter (fun c => negb (c =? star)) (replace_stars s) =
  List.filter (fun c => negb (c =? star)) s.
Proof.
  induction s as [| a | a b l IHl IHbl] using scan_ind; try reflexivity.
  rewrite replace_stars_step.
  destruct (a =? star) eqn:Ha, (b =? star) eqn:Hb; cbn [andb].
  - cbn [List.filter]. now rewrite Ha, Hb.
  - now apply filter_cons_congr.
  - now apply filter_cons_congr.
  - now apply filter_cons_congr.
Qed.

Lemma trimStart_split (s : jsstring) :
  exists pre, s = pre ++ trimStart s /\ forallb is_white pre = true.
Proof.
  induction s as [| c r [pre [E W]]]; simpl.
  - exists []. auto.
  - destruct (is_white c) eqn:Hc.
    + exists (c :: pre). simpl. rewrite Hc, W. split; [now f_equal | reflexivity].
    + exists []. auto.
Qed.

Lemma trimStart_head (s : jsstring) (c : N) (r : jsstring) :
  trimStart s = c :: r -> is_white c = false.
Proof.
  induction s as [| a l IH]; simpl; [discriminate |].
  destruct (is_white a) eqn:Ha; [exact IH |].
  intros E. injection E as -> _. exact Ha.
Qed.

Lemma forallb_rev {A} (f : A -> bool) (l : list A) :
  forallb f (rev l) = forallb f l.
Proof.
  induction l as [| a l IH]; [reflexivity |].
  simpl. rewrite forallb_app, IH. simpl. rewrite andb_true_r. apply andb_comm.
Qed.

(** [trim] cuts a white prefix and a white suffix off the string. *)
Lemma trim_split (s : jsstring) :
  exists pre post,
    s = pre ++ trim s ++ post /\
    forallb is_white pre = true /\ forallb is_white post = true.
Proof.
  unfold trim, trimEnd.
  destruct (trimStart_split s) as [pre [E1 W1]].
  destruct (trimStart_split (rev (trimStart s))) as [q [E2 W2]].
  exists pre, (rev q). repeat split; [| exact W1 | now rewrite forallb_rev].
  rewrite <- rev_app_distr, <- E2, rev_involutive. exact E1.
Qed.

Lemma trim_first (s : jsstring) (c : N) (r : jsstring) :
  trim s = c :: r -> is_white c = false.
Proof.
  unfold trim, trimEnd. intros E.
  destruct (trimStart s) as [| a l] eqn:Es.
  - simpl in E. discriminate.
  - pose proof (trimStart_head _ _ _ Es) as Ha.
    destruct (trimStart_split (rev (a :: l))) as [q [E2 _]].
    apply (f_equal (@rev N)) in E2. rewrite rev_involutive, rev_app_distr in E2.
    rewrite E in E2. simpl in E2. injection E2 as E2 _. now subst.
Qed.

Lemma trim_last (s : jsstring) (c : N) (r : jsstring) :
  trim s = r ++ [c] -> is_white c = false.
Proof.
  unfold trim, trimEnd. intros E.
  apply (f_equal (@rev N)) in E. rewrite rev_involutive, rev_app_distr in E.
  simpl in E. exact (trimStart_head _ _ _ E).
Qed.

Lemma has_marker_app_r (a b : jsstring) :
  has_marker (a ++ b) = false -> has_marker b = false.
Proof.
  induction a as [| x l IH]; simpl; [auto |].
  destruct (l ++ b) as [| y r] eqn:E.
  - intros _. destruct l; simpl in E; [subst; reflexivity | discriminate].
  - intros H. apply orb_false_iff in H as [_ H]. auto.
Qed.

Lemma has_marker_app_l (a b : jsstring) :
  has_marker (a ++ b) = false -> has_marker a = false.
Proof.
  induction a as [| x l IH]; simpl; [auto |].
  destruct l as [| y r]; [reflexivity |].
  simpl app. intros H. apply orb_false_iff in H as [H1 H2].
  rewrite H1. simpl. apply IH. exact H2.
Qed.

Lemma trim_no_marker (s : jsstring) :
  has_marker s = false -> has_marker (trim s) = false.
Proof.
  intros H. destruct (trim_split s) as [pre [post [E _]]].
  rewrite E in H. apply has_marker_app_r in H. now apply has_marker_app_l in H.
Qed.

(** ** The row parser *)

Lemma cell_absent (row : list (option jsstring)) (i : nat) :
  absent row i -> or_empty (cell row i) = [].
Proof. unfold absent, cell. intros [-> | ->]; reflexivity. Qed.

Lemma cell_present (row : list (option jsstring)) (i : nat) (s : jsstring) :
  row !! i = Some (Some s) -> or_empty (cell row i) = s.
Proof. unfold cell. intros ->. reflexivity. Qed.

Lemma column_absent (row : list (option jsstring)) (i : nat) :
  absent row i -> column i (parseRow row) = [].
Proof.
  intros H. apply cell_absent in H.
  destruct i as [| [| [| [| [| [| i]]]]]]; simpl; try assumption.
  - unfold cleanDay. now rewrite H.
  - reflexivity.
Qed.

Lemma column_present (row : list (option jsstring)) (i : nat) (s : jsstring) :
  (1 <= i < 6)%nat -> row !! i = Some (Some s) -> column i (parseRow row) = s.
Proof.
  intros Hi H. apply cell_present in H.
  destruct i as [| [| [| [| [| [| i]]]]]]; simpl; try assumption; lia.
Qed.

(** C4. The row parser is a total function: every raw row, whatever cells it
    has, gives exactly one entry.  A cell that is missing or undefined gives
    the empty string in its field, a cell that is present is copied, and the
    day is the first cell with every match of the marker of two asterisks
    deleted and the surrounding white space cut off.  The row
    ["**Monday**", "9:00-10:00", "B1", "Data Structures", "Dr. Rao",
    "Room 101"] parses to the entry with day "Monday" and the other five
    cells unchanged. *)
Theorem C4_parseRow_total_and_clean :
  forall row : list (option jsstring),
    let e := parseRow row in
    let c0 := or_empty (cell row 0) in
    (forall rs, length (List.map parseRow rs) = length rs) /\
    (forall i, absent row i -> column i e = []) /\
    (forall i s, (1 <= i < 6)%nat -> row !! i = Some (Some s) ->
                 column i e = s) /\
    day e = trim (replace_stars c0) /\
    has_marker (day e) = false /\
    List.filter (fun c => negb (c =? star)) (replace_stars c0) =
      List.filter (fun c => negb (c =? star)) c0 /\
    (has_marker c0 = false -> replace_stars c0 = c0) /\
    (exists pre post,
        replace_stars c0 = pre ++ day e ++ post /\
        forallb is_white pre = true /\ forallb is_white post = true) /\
    (forall c r, day e = c :: r -> is_white c = false) /\
    (forall c r, day e = r ++ [c] -> is_white c = false) /\
    parseRow row_monday =
      {| day := js "Monday"; time := js "9:00-10:00";
         division := Some (js "");
         classBatch := js "B1"; courseName := js "Data Structures";
         faculty := js "Dr. Rao"; venue := js "Room 101" |}.
Proof.
  intros row e c0. subst e c0.
  split; [intros rs; apply length_map |].
  split; [apply column_absent |].
  split; [apply column_present |].
  split; [reflexivity |].
  split; [apply trim_no_marker, replace_stars_no_marker |].
  split; [apply replace_stars_others |].
  split; [apply replace_stars_id |].
  split; [apply trim_split |].
  split; [apply trim_first |].
  split; [apply trim_last |].
  reflexivity.
Qed.

(** ** The filter pass *)

Lemma keepRow_spec (e : TimetableRow) :
  keepRow e = true <->
  courseName e <> [] /\ courseName e <> js "LUNCH" /\
  trim (courseName e) <> [] /\
  day e <> [] /\ day e <> js "ALL" /\ time e <> js "1:00-2:00".
Proof.
  unfold keepRow.
  rewrite !andb_true_iff, !negb_true_iff, !str_eqb_neq, !truthy_nonempty.
  change (js "") with (@nil N). tauto.
Qed.

Lemma filterRows_In (es : list TimetableRow) (e : TimetableRow) :
  In e (filterRows es) <-> In e es /\ keepRow e = true.
Proof. apply filter_In. Qed.

Lemma filterRows_app (a b : list TimetableRow) :
  filterRows (a ++ b) = filterRows a ++ filterRows b.
Proof. apply List.filter_app. Qed.

Lemma filterRows_sublist (es : list TimetableRow) :
  sublist (filterRows es) es.
Proof.
  induction es as [| e es IH]; simpl; [constructor |].
  destruct (keepRow e); now constructor.
Qed.

Lemma filterRows_count (es : list TimetableRow) (e : TimetableRow) :
  keepRow e = true ->
  count_occ TimetableRow_eq_dec (filterRows es) e =
  count_occ TimetableRow_eq_dec es e.
Proof.
  intros K. induction es as [| x es IH]; [reflexivity |].
  simpl. destruct (keepRow x) eqn:Kx; simpl;
    destruct (TimetableRow_eq_dec x e) as [-> | N]; auto; congruence.
Qed.

Lemma parse_In (st : option StoredTimetable) (e : TimetableRow) :
  In e (parseSelectedTimetable st) -> keepRow e = true.
Proof.
  unfold parseSelectedTimetable.
  destruct (st ≫= timetable); [| intros []].
  intros H. now apply filterRows_In in H.
Qed.

(** The slot the filter does exclude is the one from one to two o'clock. *)
Lemma filterRows_skips_one_to_two (es : list TimetableRow) (e : TimetableRow) :
  In e (filterRows es) -> time e <> js "1:00-2:00".
Proof. intros H. apply filterRows_In in H as [_ K]. now apply keepRow_spec in K. Qed.

(** C1. The record whose only row is a Monday class at "12:00-1:00" goes
    through the parse and filter pass unchanged: the entry at the slot the
    table renders as lunch is returned, because the filter compares the time
    with "1:00-2:00".  The entry counts as a session in the statistics, and
    no cell of the table shows it. *)
Theorem C1_noon_entry_survives :
  parseSelectedTimetable (Some (stored "tt.json" [row_noon])) =
    [parseRow row_noon] /\
  time (parseRow row_noon) = js "12:00-1:00" /\
  (exists e, In e (parseSelectedTimetable (Some (stored "tt.json" [row_noon])))
             /\ time e = js "12:00-1:00") /\
  totalSessions (parseSelectedTimetable (Some (stored "tt.json" [row_noon])))
    = 1%nat /\
  existsb (fun r => existsb is_class (snd r))
          (renderBody
             (parseSelectedTimetable (Some (stored "tt.json" [row_noon]))))
    = false.
Proof.
  split; [reflexivity |]. split; [reflexivity |].
  split; [| split; reflexivity].
  exists (parseRow row_noon). split; [left |]; reflexivity.
Qed.

(** C2, as stated, fails: a row whose day is "Saturday" survives the parse
    and filter pass, and "Saturday" is not one of the five labels of the
    table. *)
Lemma C2_saturday_survives :
  In (parseRow row_saturday)
     (parseSelectedTimetable (Some (stored "tt.json" [row_saturday]))) /\
  day (parseRow row_saturday) = js "Saturday" /\
  ~ In (day (parseRow row_saturday)) days.
Proof.
  split; [left; reflexivity |]. split; [reflexivity |].
  intros D. vm_compute in D. intuition discriminate.
Qed.

(** C2, amended. Every entry in the output of the parse and filter pass has a
    day that is not empty and is not the sentinel "ALL". *)
Theorem C2_filtered_day_nonempty_not_ALL :
  forall (st : option StoredTimetable) (e : TimetableRow),
    In e (parseSelectedTimetable st) ->
    day e <> js "" /\ day e <> js "ALL".
Proof.
  intros st e H. apply parse_In, keepRow_spec in H. tauto.
Qed.

Lemma C2_filtered_day_witness :
  In (parseRow row_saturday)
     (parseSelectedTimetable (Some (stored "tt.json" [row_saturday]))) /\
  (day (parseRow row_saturday) <> js "" /\
   day (parseRow row_saturday) <> js "ALL").
Proof.
  split.
  - left. reflexivity.
  - apply (C2_filtered_day_nonempty_not_ALL
             (Some (stored "tt.json" [row_saturday]))).
    left. reflexivity.
Defined.

(** C8. The filter pass returns a subsequence of its input in the original
    order: it distributes over concatenation, decides each entry on its own,
    keeps every passing entry as often as it occurs, and removes an entry
    only for an empty, "LUNCH" or blank course name, an empty or "ALL" day,
    or the time "1:00-2:00".  The parsed form of the raw row
    ["ALL","1:00-2:00","","LUNCH","",""] is removed wherever it stands. *)
Theorem C8_filter_order_preserving :
  forall es : list TimetableRow,
    sublist (filterRows es) es /\
    (forall a b, filterRows (a ++ b) = filterRows a ++ filterRows b) /\
    (forall e, filterRows [e] = if keepRow e then [e] else []) /\
    (forall e, In e (filterRows es) <-> In e es /\ keepRow e = true) /\
    (forall e, keepRow e = true ->
               count_occ TimetableRow_eq_dec (filterRows es) e =
               count_occ TimetableRow_eq_dec es e) /\
    (forall e, In e es -> ~ In e (filterRows es) ->
               courseName e = js "" \/ courseName e = js "LUNCH" \/
               trim (courseName e) = js "" \/
               day e = js "" \/ day e = js "ALL" \/
               time e = js "1:00-2:00") /\
    (forall a b, filterRows (a ++ parseRow row_lunch :: b) =
                 filterRows a ++ filterRows b) /\
    day (parseRow row_lunch) = js "ALL" /\
    courseName (parseRow row_lunch) = js "LUNCH" /\
    parseSelectedTimetable (Some (stored "tt.json" [row_lunch])) = [].
Proof.
  intros es.
  split; [apply filterRows_sublist |].
  split; [apply filterRows_app |].
  split; [intros e; reflexivity |].
  split; [apply filterRows_In |].
  split; [intros e; apply filterRows_count |].
  split.
  { intros e Hin Hout.
    destruct (keepRow e) eqn:K.
    - exfalso. apply Hout, filterRows_In. auto.
    - clear Hin Hout. unfold keepRow in K.
      rewrite !andb_false_iff, !negb_false_iff, !str_eqb_eq in K.
      destruct (courseName e) eqn:Ec, (day e) eqn:Ed; simpl in K;
        change (js "") with (@nil N); intuition congruence. }
  split; [intros a b; now rewrite filterRows_app |].
  repeat split.
Qed.

(** ** The rendered table *)

Lemma daySlots_In (timetableData : list TimetableRow) (d t : jsstring)
    (e : TimetableRow) :
  In e (daySlots timetableData d t) <->
  In e timetableData /\ day e = d /\ time e = t.
Proof.
  unfold daySlots. rewrite filter_In, andb_true_iff, !str_eqb_eq. tauto.
Qed.

(** The first entry of a filtered sequence is the first entry of the source
    that passes the test. *)
Lemma filter_first {A} (f : A -> bool) (l : list A) (x : A) (rest : list A) :
  List.filter f l = x :: rest ->
  exists before after,
    l = before ++ x :: after /\
    (forall y, In y before -> f y = false) /\
    f x = true /\ List.filter f after = rest.
Proof.
  induction l as [| a l IH]; simpl; [discriminate |].
  destruct (f a) eqn:Fa.
  - intros E. injection E as -> E. exists [], l. simpl. tauto.
  - intros E. destruct (IH E) as [before [after [-> [Hb [Hx Ha]]]]].
    exists (a :: before), after. simpl.
    repeat split; auto. intros y [<- | Hy]; auto.
Qed.

(** C3. Whatever the entries are, and also when one of them sits at
    "12:00-1:00", the cell of that time slot shows the lunch break on every
    day: the fourth row of the table consists of five lunch cells. *)
Theorem C3_lunch_slot_forced :
  forall timetableData : list TimetableRow,
    (forall d, renderCell timetableData (js "12:00-1:00") d = LunchBreak) /\
    renderBody timetableData !! 3%nat =
      Some (js "12:00-1:00",
            [LunchBreak; LunchBreak; LunchBreak; LunchBreak; LunchBreak]) /\
    (forall t cells c,
        In (t, cells) (renderBody timetableData) -> t = js "12:00-1:00" ->
        In c cells -> c = LunchBreak) /\
    daySlots (parseSelectedTimetable (Some (stored "tt.json" [row_noon])))
             (js "Monday") (js "12:00-1:00") = [parseRow row_noon] /\
    renderCell (parseSelectedTimetable (Some (stored "tt.json" [row_noon])))
               (js "12:00-1:00") (js "Monday") = LunchBreak.
Proof.
  intros timetableData.
  assert (L : forall d, renderCell timetableData (js "12:00-1:00") d = LunchBreak)
    by (intros d; reflexivity).
  split; [exact L |]. split; [reflexivity |].
  split; [| split; reflexivity].
  intros t cells c Hin Ht Hc. subst t.
  unfold renderBody in Hin. apply in_map_iff in Hin as [t' [E _]].
  injection E as E1 E2. subst t' cells.
  repeat (destruct Hc as [Hc | Hc]; [subst c; apply L |]). contradiction.
Qed.

(** C6. In a cell that is not the lunch slot and whose (day, time) pair is
    shared by N > 1 entries, the entry shown is the first of them in source
    order, the badge shows N - 1, and the dialog has one line for each of the
    N entries, in source order: every entry of the pair has its line.  Two
    rows that share Monday at "10:00-11:00" with different courses give the
    first row as the entry shown, the badge 1 and the lines of both rows. *)
Theorem C6_primary_and_overflow :
  (forall (timetableData : list TimetableRow) (d t : jsstring) (n : nat),
      t <> js "12:00-1:00" ->
      length (daySlots timetableData d t) = n ->
      (1 < n)%nat ->
      exists mainSlot rest before after,
        renderCell timetableData t d =
          ClassCell mainSlot (Some (n - 1)%nat)
                    (Some (List.map sessionLine (mainSlot :: rest))) /\
        daySlots timetableData d t = mainSlot :: rest /\
        length (List.map sessionLine (mainSlot :: rest)) = n /\
        timetableData = before ++ mainSlot :: after /\
        (forall e, In e before -> ~ (day e = d /\ time e = t)) /\
        day mainSlot = d /\ time mainSlot = t /\
        (forall e, In e timetableData -> day e = d -> time e = t ->
                   In e (mainSlot :: rest) /\
                   In (sessionLine e)
                      (List.map sessionLine (mainSlot :: rest)))) /\
  renderCell
    (parseSelectedTimetable (Some (stored "tt.json" [row_first; row_second])))
    (js "10:00-11:00") (js "Monday") =
    ClassCell (parseRow row_first) (Some 1%nat)
              (Some [(js "Maths", js "Dr. Rao", js "B1");
                     (js "Physics", js "Dr. Iyer", js "B2")]) /\
  parseSelectedTimetable (Some (stored "tt.json" [row_first; row_second])) =
    [parseRow row_first; parseRow row_second] /\
  courseName (parseRow row_first) <> courseName (parseRow row_second).
Proof.
  split; [| split; [reflexivity | split; [reflexivity | discriminate]]].
  intros timetableData d t n Ht Hlen Hn.
  destruct (daySlots timetableData d t) as [| mainSlot rest] eqn:E;
    [simpl in Hlen; lia |].
  destruct (filter_first _ _ _ _ E) as [before [after [Hsplit [Hb [Hm _]]]]].
  exists mainSlot, rest, before, after.
  apply andb_true_iff in Hm as [Hd Htm]. apply str_eqb_eq in Hd, Htm.
  split.
  { unfold renderCell. rewrite E.
    apply str_eqb_neq in Ht. rewrite Ht, Hlen.
    destruct (Nat.eqb_spec n 0); [lia |].
    destruct (Nat.ltb_spec 1 n); [reflexivity | lia]. }
  split; [reflexivity |].
  split; [now rewrite length_map |].
  split; [exact Hsplit |].
  split.
  { intros e He [Hed Het]. specialize (Hb e He).
    apply andb_false_iff in Hb as [Hb | Hb]; apply str_eqb_neq in Hb; auto. }
  split; [exact Hd |]. split; [exact Htm |].
  intros e He Hed Het.
  assert (Hin : In e (mainSlot :: rest))
    by (rewrite <- E; apply daySlots_In; auto).
  split; [exact Hin | now apply in_map].
Qed.

Lemma C6_two_rows_witness :
  js "10:00-11:00" <> js "12:00-1:00" /\
  length (daySlots
            (parseSelectedTimetable
               (Some (stored "tt.json" [row_first; row_second])))
            (js "Monday") (js "10:00-11:00")) = 2%nat /\
  (1 < 2)%nat /\
  exists mainSlot rest before after,
    renderCell
      (parseSelectedTimetable (Some (stored "tt.json" [row_first; row_second])))
      (js "10:00-11:00") (js "Monday") =
      ClassCell mainSlot (Some (2 - 1)%nat)
                (Some (List.map sessionLine (mainSlot :: rest))) /\
    daySlots
      (parseSelectedTimetable (Some (stored "tt.json" [row_first; row_second])))
      (js "Monday") (js "10:00-11:00") = mainSlot :: rest /\
    length (List.map sessionLine (mainSlot :: rest)) = 2%nat /\
    parseSelectedTimetable (Some (stored "tt.json" [row_first; row_second])) =
      before ++ mainSlot :: after /\
    (forall e, In e before ->
               ~ (day e = js "Monday" /\ time e = js "10:00-11:00")) /\
    day mainSlot = js "Monday" /\ time mainSlot = js "10:00-11:00" /\
    (forall e,
        In e (parseSelectedTimetable
                (Some (stored "tt.json" [row_first; row_second]))) ->
        day e = js "Monday" -> time e = js "10:00-11:00" ->
        In e (mainSlot :: rest) /\
        In (sessionLine e) (List.map sessionLine (mainSlot :: rest))).
Proof.
  split; [discriminate |]. split; [reflexivity |]. split; [lia |].
  apply (proj1 C6_primary_and_overflow
           (parseSelectedTimetable
              (Some (stored "tt.json" [row_first; row_second])))
           (js "Monday") (js "10:00-11:00") 2%nat).
  - discriminate.
  - reflexivity.
  - lia.
Defined.

(** ** The grouped index *)

Section Grouping.

Implicit Types (g : gmap jsstring (gmap jsstring (list TimetableRow))).
Implicit Types (row e : TimetableRow) (d t : jsstring).

(** One step of the loop, as a single update of the cell of the row. *)
Lemma index_step_insert g row :
  index_step g row =
  <[day row :=
      <[time row := grid_cell g (day row) (time row) ++ [row]]>
        (default ∅ (g !! day row))]> g.
Proof.
  unfold index_step, grid_cell.
  destruct (g !! day row) as [inner |] eqn:Eg; simpl.
  - rewrite Eg. simpl.
    destruct (inner !! time row) as [l |] eqn:Ei; simpl.
    + now rewrite Ei.
    + now rewrite lookup_insert_eq, insert_insert_eq.
  - rewrite lookup_insert_eq. simpl.
    rewrite lookup_empty, lookup_insert_eq. simpl.
    now rewrite !insert_insert_eq.
Qed.

Lemma index_step_cell g row d t :
  grid_cell (index_step g row) d t =
  grid_cell g d t ++ daySlots [row] d t.
Proof.
  rewrite index_step_insert. unfold daySlots. simpl.
  destruct (decide (day row = d)) as [<- | Hd].
  - replace (str_eqb (day row) (day row)) with true
      by (symmetry; now apply str_eqb_eq).
    simpl. unfold grid_cell at 1. rewrite lookup_insert_eq. simpl.
    destruct (decide (time row = t)) as [<- | Ht].
    + replace (str_eqb (time row) (time row)) with true
        by (symmetry; now apply str_eqb_eq).
      now rewrite lookup_insert_eq.
    + replace (str_eqb (time row) t) with false
        by (symmetry; now apply str_eqb_neq).
      rewrite lookup_insert_ne by assumption. rewrite app_nil_r.
      unfold grid_cell. destruct (g !! day row); simpl; [reflexivity |].
      now rewrite lookup_empty.
  - replace (str_eqb (day row) d) with false
      by (symmetry; now apply str_eqb_neq).
    simpl. rewrite app_nil_r. unfold grid_cell.
    now rewrite lookup_insert_ne.
Qed.

Lemma index_step_nonempty g row :
  cells_nonempty g -> cells_nonempty (index_step g row).
Proof.
  intros Hg d inner t l. rewrite index_step_insert.
  destruct (decide (day row = d)) as [<- | Hd].
  - rewrite lookup_insert_eq. intros E. injection E as <-.
    destruct (decide (time row = t)) as [<- | Ht].
    + rewrite lookup_insert_eq. intros E. injection E as <-.
      now destruct (grid_cell g (day row) (time row)).
    + rewrite lookup_insert_ne by assumption.
      destruct (g !! day row) as [inner |] eqn:Eg; simpl.
      * apply (Hg _ _ _ _ Eg).
      * now rewrite lookup_empty.
  - rewrite lookup_insert_ne by assumption. apply Hg.
Qed.

Lemma fold_group_cell (timetableData : list TimetableRow) g d t :
  grid_cell (fold_left index_step timetableData g) d t =
  grid_cell g d t ++ daySlots timetableData d t.
Proof.
  revert g. induction timetableData as [| row rest IH]; intros g; simpl.
  - now rewrite app_nil_r.
  - rewrite IH, index_step_cell, <- app_assoc. f_equal.
    unfold daySlots. simpl.
    now destruct (str_eqb (day row) d && str_eqb (time row) t).
Qed.

Lemma fold_group_nonempty (timetableData : list TimetableRow) g :
  cells_nonempty g ->
  cells_nonempty (fold_left index_step timetableData g).
Proof.
  revert g. induction timetableData as [| row rest IH]; intros g Hg; simpl.
  - exact Hg.
  - apply IH, index_step_nonempty, Hg.
Qed.

Lemma grid_cell_lookup g d t inner l :
  g !! d = Some inner -> inner !! t = Some l -> grid_cell g d t = l.
Proof. unfold grid_cell. intros -> E. simpl. now rewrite E. Qed.

End Grouping.

(** The index the specification describes holds under a pair of keys the
    subsequence of the input with that day and that time, in the order of
    the input; a key that is present holds a sequence that is not empty, and
    every entry is found under its own pair. *)
Lemma weeklyGrid_cells :
  forall timetableData : list TimetableRow,
    let grouped := weeklyGrid timetableData in
    (forall d t, grid_cell grouped d t = daySlots timetableData d t) /\
    (forall d inner t l,
        grouped !! d = Some inner -> inner !! t = Some l ->
        l = daySlots timetableData d t /\ l <> [] /\
        forall e, In e l -> In e timetableData /\ day e = d /\ time e = t) /\
    (forall e, In e timetableData ->
               exists inner l,
                 grouped !! day e = Some inner /\
                 inner !! time e = Some l /\ In e l).
Proof.
  intros timetableData grouped. subst grouped.
  unfold weeklyGrid.
  assert (C : forall d t,
             grid_cell (fold_left index_step timetableData ∅) d t =
             daySlots timetableData d t).
  { intros d t. rewrite fold_group_cell. unfold grid_cell.
    now rewrite lookup_empty. }
  assert (NE : cells_nonempty (fold_left index_step timetableData ∅)).
  { apply fold_group_nonempty. intros d inner t l E.
    now rewrite lookup_empty in E. }
  split; [exact C |]. split.
  - intros d inner t l Hd Ht.
    pose proof (grid_cell_lookup _ _ _ _ _ Hd Ht) as E. rewrite C in E.
    split; [now symmetry |]. split; [exact (NE _ _ _ _ Hd Ht) |].
    intros e He. rewrite <- E in He. now apply daySlots_In in He.
  - intros e He.
    assert (Hin : In e (grid_cell (fold_left index_step timetableData ∅)
                                  (day e) (time e))).
    { rewrite C. apply daySlots_In. auto. }
    unfold grid_cell in Hin.
    destruct (fold_left index_step timetableData ∅ !! day e) as [inner |];
      simpl in Hin; [| contradiction].
    destruct (inner !! time e) as [l |] eqn:El; simpl in Hin; [| contradiction].
    exists inner, l. auto.
Qed.

(** ** The record loader *)

(** C7. When the fetch succeeds with a list that is not empty, the list is
    stored and its first record becomes the selected timetable; when it
    succeeds with the empty list, the selection is cleared; when it fails,
    by an unsuccessful result or by a rejected call, the stored list and the
    selection stay as they were and one notice is raised. *)
Theorem C7_loadTimetables_selection :
  forall s : ViewState,
    (forall result first rest,
        success result = true -> data result = first :: rest ->
        let s' := Eff.run (loadTimetables (Resolved result)) s in
        timetables s' = first :: rest /\
        selectedTimetable s' = Some first /\
        toasts s' = toasts s) /\
    (forall result,
        success result = true -> data result = [] ->
        let s' := Eff.run (loadTimetables (Resolved result)) s in
        timetables s' = [] /\
        selectedTimetable s' = None /\
        toasts s' = toasts s) /\
    (forall result,
        success result = false ->
        let s' := Eff.run (loadTimetables (Resolved result)) s in
        timetables s' = timetables s /\
        selectedTimetable s' = selectedTimetable s /\
        exists notice, toasts s' = toasts s ++ [notice]) /\
    (let s' := Eff.run (loadTimetables Rejected) s in
     timetables s' = timetables s /\
     selectedTimetable s' = selectedTimetable s /\
     exists notice, toasts s' = toasts s ++ [notice]).
Proof.
  intros s. unfold Eff.run, loadTimetables.
  split; [| split; [| split]].
  - intros result first rest Hs Hd. rewrite Hs, Hd. simpl. auto.
  - intros result Hs Hd. rewrite Hs, Hd. simpl. auto.
  - intros result Hs. rewrite Hs. simpl. eauto.
  - simpl. eauto.
Qed.

(** ** The query parameters *)

Module USPFacts.
Import URLSearchParams.

Lemma delete_idem (name : jsstring) (p : t) :
  delete name (delete name p) = delete name p.
Proof.
  unfold delete. induction p as [| [n v] p IH]; [reflexivity |].
  simpl. destruct (str_eqb n name) eqn:E; simpl; [exact IH |].
  rewrite E. simpl. now f_equal.
Qed.

Lemma delete_absent (name : jsstring) (p : t) :
  has name p = false -> delete name p = p.
Proof.
  unfold has, delete. induction p as [| [n v] p IH]; [reflexivity |].
  simpl. destruct (str_eqb n name); simpl; [discriminate |].
  intros H. f_equal. auto.
Qed.

Lemma has_delete (name : jsstring) (p : t) :
  has name (delete name p) = false.
Proof.
  unfold has, delete. induction p as [| [n v] p IH]; [reflexivity |].
  simpl. destruct (str_eqb n name) eqn:E; simpl; [exact IH |].
  now rewrite E.
Qed.

Lemma delete_set (name value : jsstring) (p : t) :
  delete name (set name value p) = delete name p.
Proof.
  induction p as [| [n v] p IH]; simpl.
  - replace (str_eqb name name) with true
      by (symmetry; now apply str_eqb_eq).
    reflexivity.
  - destruct (str_eqb n name) eqn:E; simpl; rewrite E; simpl.
    + apply delete_idem.
    + f_equal. exact IH.
Qed.

Lemma get_set (name value : jsstring) (p : t) :
  get name (set name value p) = Some value.
Proof.
  induction p as [| [n v] p IH]; simpl.
  - replace (str_eqb name name) with true
      by (symmetry; now apply str_eqb_eq).
    reflexivity.
  - destruct (str_eqb n name) eqn:E; simpl; rewrite E; auto.
Qed.

Lemma get_absent (name : jsstring) (p : t) :
  has name p = false -> get name p = None.
Proof.
  unfold has. induction p as [| [n v] p IH]; [reflexivity |].
  simpl. destruct (str_eqb n name); simpl; [discriminate | exact IH].
Qed.

Lemma has_In (name : jsstring) (p : t) :
  has name p = false <-> forall value, ~ In (name, value) p.
Proof.
  unfold has. induction p as [| [n v] p IH]; simpl.
  - split; auto.
  - rewrite orb_false_iff, IH, str_eqb_neq. split.
    + intros [Hn Hp] value [E | Hin]; [congruence | exact (Hp value Hin)].
    + intros H. split.
      * intros ->. apply (H v). now left.
      * intros value Hin. apply (H value). now right.
Qed.

(** Reading a name skips the pairs of every other name. *)
Lemma get_delete_ne (k name : jsstring) (p : t) :
  k <> name -> get k (delete name p) = get k p.
Proof.
  intros Hk. unfold delete. induction p as [| [n v] p IH]; [reflexivity |].
  simpl. destruct (str_eqb n name) eqn:E; simpl.
  - apply str_eqb_eq in E. subst n.
    replace (str_eqb name k) with false
      by (symmetry; apply str_eqb_neq; congruence).
    exact IH.
  - destruct (str_eqb n k); [reflexivity | exact IH].
Qed.

Lemma getAll_delete_ne (k name : jsstring) (p : t) :
  k <> name -> getAll k (delete name p) = getAll k p.
Proof.
  intros Hk. unfold getAll, delete.
  induction p as [| [n v] p IH]; [reflexivity |].
  simpl. destruct (str_eqb n name) eqn:E; simpl.
  - apply str_eqb_eq in E. subst n.
    replace (str_eqb name k) with false
      by (symmetry; apply str_eqb_neq; congruence).
    exact IH.
  - destruct (str_eqb n k); simpl; [now f_equal | exact IH].
Qed.

Lemma getAll_delete (name : jsstring) (p : t) :
  getAll name (delete name p) = [].
Proof.
  unfold getAll, delete. induction p as [| [n v] p IH]; [reflexivity |].
  simpl. destruct (str_eqb n name) eqn:E; simpl; [exact IH |].
  now rewrite E.
Qed.

Lemma getAll_set (name value : jsstring) (p : t) :
  getAll name (set name value p) = [value].
Proof.
  induction p as [| [n v] p IH]; simpl.
  - unfold getAll. simpl.
    replace (str_eqb name name) with true
      by (symmetry; now apply str_eqb_eq).
    reflexivity.
  - destruct (str_eqb n name) eqn:E.
    + unfold getAll. simpl. rewrite E. simpl. f_equal.
      apply (getAll_delete name p).
    + unfold getAll in *. simpl. rewrite E. exact IH.
Qed.

End USPFacts.

Section Handlers.

Import URLSearchParams.

Lemma handleBranchChange_update (v : jsstring) (p : t) :
  handleBranchChange v p = update_key (js "branch") v p.
Proof. reflexivity. Qed.

Lemma handleDivisionChange_update (v : jsstring) (p : t) :
  handleDivisionChange v p = update_key (js "division") v p.
Proof. reflexivity. Qed.

Lemma update_key_frame (name v : jsstring) (p : t) :
  get name (update_key name v p) =
    (if str_eqb v (js "all") then None else Some v) /\
  getAll name (update_key name v p) =
    (if str_eqb v (js "all") then [] else [v]) /\
  has name (update_key name v p) = negb (str_eqb v (js "all")) /\
  delete name (update_key name v p) = delete name p /\
  (forall k, k <> name ->
             get k (update_key name v p) = get k p /\
             getAll k (update_key name v p) = getAll k p).
Proof.
  assert (D : delete name (update_key name v p) = delete name p).
  { unfold update_key. destruct (str_eqb v (js "all")).
    - apply USPFacts.delete_idem.
    - apply USPFacts.delete_set. }
  unfold update_key in *. destruct (str_eqb v (js "all")) eqn:E; simpl.
  - split; [apply USPFacts.get_absent, USPFacts.has_delete |].
    split; [apply USPFacts.getAll_delete |].
    split; [apply USPFacts.has_delete |].
    split; [exact D |].
    intros k Hk.
    now rewrite USPFacts.get_delete_ne, USPFacts.getAll_delete_ne.
  - split; [apply USPFacts.get_set |].
    split; [apply USPFacts.getAll_set |].
    split.
    { destruct (has name (set name v p)) eqn:H; [reflexivity |].
      apply USPFacts.get_absent in H. rewrite USPFacts.get_set in H.
      discriminate. }
    split; [exact D |].
    intros k Hk.
    rewrite <- (USPFacts.get_delete_ne k name (set name v p)) by assumption.
    rewrite <- (USPFacts.getAll_delete_ne k name (set name v p)) by assumption.
    rewrite D.
    now rewrite USPFacts.get_delete_ne, USPFacts.getAll_delete_ne.
Qed.

Lemma update_key_round_trip (name v : jsstring) (p : t) :
  has name p = false -> update_key name (js "all") (update_key name v p) = p.
Proof.
  intros H. unfold update_key at 1. simpl.
  destruct (update_key_frame name v p) as (_ & _ & _ & D & _).
  rewrite D. now apply USPFacts.delete_absent.
Qed.

End Handlers.

(** C9. From parameters without a branch key, choosing a branch and then
    choosing "all" gives back the parameters one started from, which have no
    branch key; choosing "all" never stores the word but removes every pair
    of the key. *)
Theorem C9_branch_round_trip :
  (forall (searchParams : URLSearchParams.t) (newBranch : jsstring),
      URLSearchParams.has (js "branch") searchParams = false ->
      handleBranchChange (js "all")
        (handleBranchChange newBranch searchParams) = searchParams /\
      URLSearchParams.has (js "branch")
        (handleBranchChange (js "all")
           (handleBranchChange newBranch searchParams)) = false) /\
  (forall searchParams : URLSearchParams.t,
      URLSearchParams.has (js "branch")
        (handleBranchChange (js "all") searchParams) = false /\
      URLSearchParams.get (js "branch")
        (handleBranchChange (js "all") searchParams) = None /\
      (forall value,
          ~ In (js "branch", value)
               (handleBranchChange (js "all") searchParams)) /\
      URLSearchParams.has (js "division")
        (handleDivisionChange (js "all") searchParams) = false /\
      (forall value,
          ~ In (js "division", value)
               (handleDivisionChange (js "all") searchParams))) /\
  handleBranchChange (js "all") (handleBranchChange (js "CS") []) = [] /\
  handleBranchChange (js "CS") [] = [(js "branch", js "CS")].
Proof.
  split; [| split; [| split; reflexivity]].
  - intros p v H. rewrite !handleBranchChange_update.
    rewrite (update_key_round_trip _ _ _ H). auto.
  - intros p.
    assert (B : URLSearchParams.has (js "branch")
                  (handleBranchChange (js "all") p) = false)
      by apply USPFacts.has_delete.
    assert (D : URLSearchParams.has (js "division")
                  (handleDivisionChange (js "all") p) = false)
      by apply USPFacts.has_delete.
    split; [exact B |].
    split; [now apply USPFacts.get_absent |].
    split; [now apply USPFacts.has_In |].
    split; [exact D | now apply USPFacts.has_In].
Qed.

Lemma C9_round_trip_witness :
  URLSearchParams.has (js "branch") [(js "division", js "A")] = false /\
  handleBranchChange (js "all")
    (handleBranchChange (js "CS") [(js "division", js "A")]) =
    [(js "division", js "A")] /\
  URLSearchParams.has (js "branch")
    (handleBranchChange (js "all")
       (handleBranchChange (js "CS") [(js "division", js "A")])) = false.
Proof.
  split; [reflexivity |].
  apply (proj1 C9_branch_round_trip [(js "division", js "A")] (js "CS")).
  reflexivity.
Defined.

(** C10. A change of the branch touches the branch key only: afterwards the
    key is absent when the value is "all" and holds exactly the value
    otherwise, while the pairs of every other key, the division among them,
    are the same pairs in the same order.  The same holds for a change of
    the division, with the two keys exchanged. *)
Theorem C10_handlers_frame :
  forall (searchParams : URLSearchParams.t) (v : jsstring),
    (URLSearchParams.get (js "branch") (handleBranchChange v searchParams) =
       (if str_eqb v (js "all") then None else Some v) /\
     URLSearchParams.getAll (js "branch") (handleBranchChange v searchParams) =
       (if str_eqb v (js "all") then [] else [v]) /\
     URLSearchParams.delete (js "branch") (handleBranchChange v searchParams) =
       URLSearchParams.delete (js "branch") searchParams /\
     URLSearchParams.get (js "division") (handleBranchChange v searchParams) =
       URLSearchParams.get (js "division") searchParams /\
     (forall k, k <> js "branch" ->
        URLSearchParams.get k (handleBranchChange v searchParams) =
          URLSearchParams.get k searchParams /\
        URLSearchParams.getAll k (handleBranchChange v searchParams) =
          URLSearchParams.getAll k searchParams)) /\
    (URLSearchParams.get (js "division") (handleDivisionChange v searchParams) =
       (if str_eqb v (js "all") then None else Some v) /\
     URLSearchParams.getAll (js "division")
       (handleDivisionChange v searchParams) =
       (if str_eqb v (js "all") then [] else [v]) /\
     URLSearchParams.delete (js "division")
       (handleDivisionChange v searchParams) =
       URLSearchParams.delete (js "division") searchParams /\
     URLSearchParams.get (js "branch") (handleDivisionChange v searchParams) =
       URLSearchParams.get (js "branch") searchParams /\
     (forall k, k <> js "division" ->
        URLSearchParams.get k (handleDivisionChange v searchParams) =
          URLSearchParams.get k searchParams /\
        URLSearchParams.getAll k (handleDivisionChange v searchParams) =
          URLSearchParams.getAll k searchParams)).
Proof.
  intros p v.
  rewrite handleBranchChange_update, handleDivisionChange_update.
  destruct (update_key_frame (js "branch") v p) as (G1 & A1 & _ & D1 & F1).
  destruct (update_key_frame (js "division") v p) as (G2 & A2 & _ & D2 & F2).
  split.
  - split; [exact G1 |]. split; [exact A1 |]. split; [exact D1 |].
    split; [| exact F1]. apply F1. discriminate.
  - split; [exact G2 |]. split; [exact A2 |]. split; [exact D2 |].
    split; [| exact F2]. apply F2. discriminate.
Qed.

(** * Further properties of the component *)

(** ** Cleaning and parsing *)

Lemma trimStart_fixed (s : jsstring) :
  (forall c r, s = c :: r -> is_white c = false) -> trimStart s = s.
Proof.
  destruct s as [| c r]; [reflexivity |].
  intros H. simpl. now rewrite (H c r eq_refl).
Qed.

Lemma trimStart_white (s : jsstring) :
  forallb is_white s = true -> trimStart s = [].
Proof.
  induction s as [| c r IH]; [reflexivity |].
  simpl. intros H. apply andb_true_iff in H as [Hc Hr]. now rewrite Hc, IH.
Qed.

Lemma trim_idem (s : jsstring) : trim (trim s) = trim s.
Proof.
  unfold trim at 1.
  rewrite (trimStart_fixed (trim s)) by apply trim_first.
  unfold trimEnd. rewrite trimStart_fixed; [apply rev_involutive |].
  intros c r E. apply (trim_last s c (rev r)).
  apply (f_equal (@rev N)) in E. rewrite rev_involutive in E. exact E.
Qed.

Lemma trim_nil_iff (s : jsstring) :
  trim s = [] <-> forallb is_white s = true.
Proof.
  split.
  - intros E. destruct (trim_split s) as [pre [post [Hs [Hp Hq]]]].
    rewrite E in Hs. rewrite Hs, forallb_app. simpl. now rewrite Hp, Hq.
  - intros H. unfold trim. now rewrite (trimStart_white s H).
Qed.

(** X1. Cleaning a day is idempotent: a day that went through the deletion
    of the asterisk pairs and the trimming comes out of a second cleaning
    unchanged, so a stored record whose day cells are already clean parses
    to the same days. *)
Theorem X1_cleanDay_idempotent :
  forall (row rest : list (option jsstring)),
    cleanDay (Some (cleanDay row) :: rest) = cleanDay row /\
    day (parseRow (Some (day (parseRow row)) :: rest)) = day (parseRow row).
Proof.
  assert (H : forall row rest,
             cleanDay (Some (cleanDay row) :: rest) = cleanDay row).
  { intros row rest. unfold cleanDay at 1. unfold cell. simpl.
    rewrite replace_stars_id.
    - unfold cleanDay. apply trim_idem.
    - unfold cleanDay. apply trim_no_marker, replace_stars_no_marker. }
  intros row rest. split; [apply H | apply (H row rest)].
Qed.

Lemma keepRow_course_visible (e : TimetableRow) :
  keepRow e = true ->
  existsb (fun c => negb (is_white c)) (courseName e) = true.
Proof.
  intros K. apply keepRow_spec in K as (_ & _ & T & _).
  destruct (existsb (fun c => negb (is_white c)) (courseName e)) eqn:E;
    [reflexivity |].
  exfalso. apply T, trim_nil_iff.
  apply forallb_forall. intros c Hc.
  destruct (is_white c) eqn:W; [reflexivity |].
  assert (X : existsb (fun c => negb (is_white c)) (courseName e) = true)
    by (apply existsb_exists; exists c; rewrite W; auto).
  congruence.
Qed.

Lemma or_empty_cell_nonempty (row : list (option jsstring)) (i : nat) :
  or_empty (cell row i) <> [] ->
  row !! i = Some (Some (or_empty (cell row i))) /\ (i < length row)%nat.
Proof.
  unfold cell. intros H.
  destruct (row !! i) as [[s |] |] eqn:E; simpl in *; try congruence.
  split; [reflexivity |]. now apply lookup_lt_Some in E.
Qed.

(** X2. The parse and filter pass returns at most one entry per row of the
    selected record and none when there is no record or no table.  Every
    entry it returns is the parsed form of a row of the table that has at
    least four cells, a course cell with a code unit that is not white space
    and a day cell that is a non-empty string: shorter rows and rows with a
    blank course never reach the table. *)
Theorem X2_returned_entries_origin :
  forall st : option StoredTimetable,
    (length (parseSelectedTimetable st) <=
       length (default [] (rows <$> (st ≫= timetable))))%nat /\
    (st ≫= timetable = None -> parseSelectedTimetable st = []) /\
    (forall e,
        In e (parseSelectedTimetable st) ->
        exists record table row course d,
          st = Some record /\ timetable record = Some table /\
          In row (rows table) /\ e = parseRow row /\
          (4 <= length row)%nat /\
          row !! 3%nat = Some (Some course) /\ courseName e = course /\
          existsb (fun c => negb (is_white c)) course = true /\
          row !! 0%nat = Some (Some d) /\ d <> []).
Proof.
  intros st. unfold parseSelectedTimetable.
  destruct st as [record |]; simpl; [| repeat split; auto; intros e []].
  destruct (timetable record) as [table |] eqn:Et; simpl;
    [| repeat split; auto; intros e []].
  split.
  { unfold filterRows. etransitivity; [apply List.filter_length_le |].
    now rewrite length_map. }
  split; [discriminate |].
  intros e He. apply filterRows_In in He as [Hin K].
  apply in_map_iff in Hin as [row [<- Hrow]].
  pose proof (keepRow_course_visible _ K) as V.
  apply keepRow_spec in K as (C & _ & _ & D & _).
  simpl in C, D, V.
  destruct (or_empty_cell_nonempty row 3 C) as [E3 L3].
  assert (D0 : or_empty (cell row 0) <> []).
  { intros E0. apply D. unfold cleanDay. now rewrite E0. }
  destruct (or_empty_cell_nonempty row 0 D0) as [E0 _].
  exists record, table, row, (or_empty (cell row 3)), (or_empty (cell row 0)).
  repeat split; auto.
Qed.

Lemma X2_returned_entries_witness :
  exists record table row course d,
    Some (stored "tt.json" [row_lunch; row_monday]) = Some record /\
    timetable record = Some table /\
    In row (rows table) /\ parseRow row_monday = parseRow row /\
    (4 <= length row)%nat /\
    row !! 3%nat = Some (Some course) /\
    courseName (parseRow row_monday) = course /\
    existsb (fun c => negb (is_white c)) course = true /\
    row !! 0%nat = Some (Some d) /\ d <> [].
Proof.
  apply (proj2 (proj2 (X2_returned_entries_origin
                         (Some (stored "tt.json" [row_lunch; row_monday]))))).
  left. reflexivity.
Defined.

(** ** Cells of the table *)

(** The cell, by the number of entries of its (day, time) pair. *)
Lemma renderCell_cases (timetableData : list TimetableRow) (t d : jsstring) :
  renderCell timetableData t d =
  if str_eqb t (js "12:00-1:00") then LunchBreak
  else match daySlots timetableData d t with
       | [] => FreePeriod
       | [m] => ClassCell m None None
       | m :: r =>
           ClassCell m (Some (length r)) (Some (List.map sessionLine (m :: r)))
       end.
Proof.
  unfold renderCell. destruct (str_eqb t (js "12:00-1:00")); [reflexivity |].
  destruct (daySlots timetableData d t) as [| m [| x r]]; reflexivity.
Qed.

Lemma daySlots_nil (timetableData : list TimetableRow) (d t : jsstring) :
  daySlots timetableData d t = [] <->
  forall e, In e timetableData -> ~ (day e = d /\ time e = t).
Proof.
  split.
  - intros E e He [Hd Ht].
    assert (X : In e (daySlots timetableData d t)) by (apply daySlots_In; auto).
    rewrite E in X. exact X.
  - intros H. destruct (daySlots timetableData d t) as [| m r] eqn:E;
      [reflexivity |].
    exfalso. assert (X : In m (daySlots timetableData d t))
      by (rewrite E; now left).
    apply daySlots_In in X as (Hin & Hd & Ht). exact (H m Hin (conj Hd Ht)).
Qed.

Lemma renderBody_In (timetableData : list TimetableRow) (t : jsstring)
    (cells : list CellView) :
  In (t, cells) (renderBody timetableData) ->
  In t timeSlots /\ cells = List.map (renderCell timetableData t) days.
Proof.
  unfold renderBody. intros H. apply in_map_iff in H as [t' [E Ht']].
  inversion E; subst. split; [assumption | reflexivity].
Qed.

(** X3. A body cell has one of three states, decided by the time slot and by
    the entries of the cell's day and time alone: at "12:00-1:00" it is the
    lunch break and at no other slot; elsewhere it is a free period exactly
    when no entry has that day and time, and a class cell exactly when some
    entry has. *)
Theorem X3_cell_tri_state :
  forall (timetableData : list TimetableRow) (t d : jsstring),
    (renderCell timetableData t d = LunchBreak <-> t = js "12:00-1:00") /\
    (renderCell timetableData t d = FreePeriod <->
       t <> js "12:00-1:00" /\
       forall e, In e timetableData -> ~ (day e = d /\ time e = t)) /\
    (is_class (renderCell timetableData t d) = true <->
       t <> js "12:00-1:00" /\
       exists e, In e timetableData /\ day e = d /\ time e = t).
Proof.
  intros data t d. rewrite renderCell_cases, <- daySlots_nil.
  destruct (str_eqb t (js "12:00-1:00")) eqn:Et.
  - apply str_eqb_eq in Et. simpl.
    repeat split; try tauto; try discriminate; intros [H _]; contradiction.
  - apply str_eqb_neq in Et.
    destruct (daySlots data d t) as [| m r] eqn:E.
    + repeat split; try tauto; try discriminate.
      intros [_ [e (Hin & Hd & Ht)]].
      assert (X : In e (daySlots data d t)) by (apply daySlots_In; auto).
      rewrite E in X. contradiction.
    + assert (X : In m (daySlots data d t)) by (rewrite E; now left).
      apply daySlots_In in X.
      destruct r; simpl; repeat split; try tauto; try discriminate;
        try (intros [_ ?]; discriminate); eauto.
Qed.

(** X4. A class cell never shows anything foreign: the entry it shows is an
    entry of the data with the day and the time of the cell, the first such
    in the data; a cell of a single entry has neither a badge nor a list of
    sessions, and a badge [+n more] stands on a cell of exactly [n + 1]
    entries with [n >= 1], whose dialog has [n + 1] lines.  In the table,
    the entry shown by a class cell has one of the five days and one of the
    slots other than the lunch slot. *)
Theorem X4_class_cell_sound :
  (forall (timetableData : list TimetableRow) (t d : jsstring) m more ses,
      renderCell timetableData t d = ClassCell m more ses ->
      In m timetableData /\ day m = d /\ time m = t /\
      t <> js "12:00-1:00" /\
      (exists r, daySlots timetableData d t = m :: r /\
                 ((r = [] /\ more = None /\ ses = None) \/
                  (r <> [] /\ more = Some (length r) /\
                   ses = Some (List.map sessionLine (m :: r)))))) /\
  (forall (timetableData : list TimetableRow) t cells m more ses,
      In (t, cells) (renderBody timetableData) ->
      In (ClassCell m more ses) cells ->
      In m timetableData /\ in_grid m = true /\ time m = t).
Proof.
  assert (A : forall (timetableData : list TimetableRow) (t d : jsstring)
                m more ses,
             renderCell timetableData t d = ClassCell m more ses ->
             In m timetableData /\ day m = d /\ time m = t /\
             t <> js "12:00-1:00" /\
             (exists r, daySlots timetableData d t = m :: r /\
                        ((r = [] /\ more = None /\ ses = None) \/
                         (r <> [] /\ more = Some (length r) /\
                          ses = Some (List.map sessionLine (m :: r)))))).
  { intros data t d m more ses. rewrite renderCell_cases.
    destruct (str_eqb t (js "12:00-1:00")) eqn:Et; [discriminate |].
    apply str_eqb_neq in Et.
    destruct (daySlots data d t) as [| m0 r] eqn:E; [discriminate |].
    assert (X : In m0 (daySlots data d t)) by (rewrite E; now left).
    apply daySlots_In in X as (Hin & Hd & Ht).
    destruct r as [| x r]; intros H; injection H as <- <- <-;
      (repeat split; auto); eexists; split; try reflexivity.
    - left. auto.
    - right. repeat split; auto. }
  split; [exact A |].
  intros data t cells m more ses Hrow Hc.
  destruct (renderBody_In _ _ _ Hrow) as [Ht' Ec]. rewrite Ec in Hc.
  apply in_map_iff in Hc as [d [E Hd]].
  destruct (A _ _ _ _ _ _ E) as (Hin & Hday & Htime & Hl & _).
  split; [exact Hin |]. split; [| exact Htime].
  unfold in_grid. rewrite Hday, Htime.
  apply andb_true_iff. split; [apply andb_true_iff; split |].
  - apply existsb_exists. exists d. split; [exact Hd | now apply str_eqb_eq].
  - apply existsb_exists. exists t. split; [exact Ht' | now apply str_eqb_eq].
  - apply negb_true_iff. now apply str_eqb_neq.
Qed.

(** ** Counting the entries of the table *)

Lemma NoDup_days : NoDup days.
Proof. apply (bool_decide_unpack _). vm_compute. exact I. Qed.

Lemma NoDup_timeSlots : NoDup timeSlots.
Proof. apply (bool_decide_unpack _). vm_compute. exact I. Qed.

Lemma list_sum_map_add {A} (f g : A -> nat) (l : list A) :
  list_sum (List.map (fun a => f a + g a)%nat l) =
  (list_sum (List.map f l) + list_sum (List.map g l))%nat.
Proof. induction l as [| a l IH]; simpl; lia. Qed.

Lemma list_sum_map_zero {A} (l : list A) :
  list_sum (List.map (fun _ => 0%nat) l) = 0%nat.
Proof. induction l as [| a l IH]; simpl; auto. Qed.

(** Over a list without repetition, only the key equal to [x] counts. *)
Lemma list_sum_indicator (ks : list jsstring) (x : jsstring)
    (c : jsstring -> nat) :
  NoDup ks ->
  list_sum (List.map (fun k => if str_eqb x k then c k else 0%nat) ks) =
  if existsb (str_eqb x) ks then c x else 0%nat.
Proof.
  induction ks as [| k ks IH]; [reflexivity |].
  intros H. apply NoDup_cons in H as [Hk Hks]. simpl.
  rewrite (IH Hks). destruct (str_eqb x k) eqn:E; [| reflexivity].
  apply str_eqb_eq in E. subst k. simpl.
  destruct (existsb (str_eqb x) ks) eqn:Ex; [| lia].
  exfalso. apply existsb_exists in Ex as [y [Hy Exy]].
  apply str_eqb_eq in Exy. subst y. apply Hk. now apply list_elem_of_In.
Qed.

Lemma entries_shown_cell (timetableData : list TimetableRow) (t d : jsstring) :
  entries_shown (renderCell timetableData t d) =
  if str_eqb t (js "12:00-1:00") then 0%nat
  else length (daySlots timetableData d t).
Proof.
  rewrite renderCell_cases. destruct (str_eqb t (js "12:00-1:00"));
    [reflexivity |].
  now destruct (daySlots timetableData d t) as [| m [| x r]].
Qed.

Lemma entries_shown_cons (e : TimetableRow) (timetableData : list TimetableRow)
    (t d : jsstring) :
  entries_shown (renderCell (e :: timetableData) t d) =
  ((if str_eqb (time e) t
    then if str_eqb (day e) d
         then if str_eqb t (js "12:00-1:00") then 0 else 1
         else 0
    else 0) + entries_shown (renderCell timetableData t d))%nat.
Proof.
  rewrite !entries_shown_cell. unfold daySlots. simpl.
  destruct (str_eqb (time e) t), (str_eqb (day e) d),
    (str_eqb t (js "12:00-1:00")); reflexivity.
Qed.

Lemma table_entries_cons (e : TimetableRow) (timetableData : list TimetableRow) :
  table_entries (renderBody (e :: timetableData)) =
  ((if in_grid e then 1 else 0) + table_entries (renderBody timetableData))%nat.
Proof.
  unfold table_entries, renderBody. rewrite !map_map. cbn [snd].
  rewrite (map_ext _
             (fun t =>
                (if str_eqb (time e) t
                 then if existsb (str_eqb (day e)) days
                      then if str_eqb t (js "12:00-1:00") then 0 else 1
                      else 0
                 else 0) +
                list_sum (List.map entries_shown
                            (List.map (renderCell timetableData t) days)))%nat).
  - rewrite list_sum_map_add. f_equal.
    rewrite (list_sum_indicator timeSlots (time e)
               (fun t => if existsb (str_eqb (day e)) days
                         then if str_eqb t (js "12:00-1:00") then 0%nat
                              else 1%nat
                         else 0%nat) NoDup_timeSlots).
    unfold in_grid.
    destruct (existsb (str_eqb (time e)) timeSlots),
      (existsb (str_eqb (day e)) days),
      (str_eqb (time e) (js "12:00-1:00")); reflexivity.
  - intros t. rewrite !map_map.
    rewrite (map_ext _ _ (fun d => entries_shown_cons e timetableData t d)).
    rewrite list_sum_map_add. f_equal.
    destruct (str_eqb (time e) t).
    + apply (list_sum_indicator days (day e)
               (fun _ => if str_eqb t (js "12:00-1:00") then 0%nat else 1%nat)
               NoDup_days).
    + apply list_sum_map_zero.
Qed.

Lemma table_entries_filter (timetableData : list TimetableRow) :
  table_entries (renderBody timetableData) =
  length (List.filter in_grid timetableData).
Proof.
  induction timetableData as [| e l IH]; [reflexivity |].
  rewrite table_entries_cons, IH. simpl. now destruct (in_grid e).
Qed.

Lemma totalSessions_filtered (st : option StoredTimetable) :
  totalSessions (parseSelectedTimetable st) =
  length (parseSelectedTimetable st).
Proof.
  unfold totalSessions. f_equal.
  apply forallb_filter_id. apply forallb_forall. intros e He.
  apply parse_In, keepRow_spec in He as (C & _).
  apply andb_true_iff. split.
  - now apply truthy_nonempty.
  - apply negb_true_iff. now apply str_eqb_neq.
Qed.

(** X5. The class cells of the table, each counted with the entries behind
    its badge, stand for exactly the entries whose day is one of the five
    columns and whose time is a slot other than the lunch slot, each entry
    once.  The table therefore never stands for more entries than the data
    has, nor for more than the "Total Sessions" figure of the selected
    record, and it stands for all of them when every entry has a cell. *)
Theorem X5_table_entry_count :
  forall timetableData : list TimetableRow,
    table_entries (renderBody timetableData) =
      length (List.filter in_grid timetableData) /\
    (table_entries (renderBody timetableData) <= length timetableData)%nat /\
    (forallb in_grid timetableData = true ->
     table_entries (renderBody timetableData) = length timetableData) /\
    (forall st,
        (table_entries (renderBody (parseSelectedTimetable st)) <=
         sessions_total (weeklyStatistics (parseSelectedTimetable st)))%nat).
Proof.
  intros data. split; [apply table_entries_filter |].
  split; [rewrite table_entries_filter; apply List.filter_length_le |].
  split.
  - intros H. rewrite table_entries_filter. now rewrite forallb_filter_id.
  - intros st. simpl. rewrite totalSessions_filtered, table_entries_filter.
    apply List.filter_length_le.
Qed.

(** ** The weekly statistics *)

Lemma distinct_le (values : list jsstring) :
  (distinct values <= length values)%nat.
Proof.
  unfold distinct. induction values as [| x l IH].
  - rewrite list_to_set_nil, size_empty. simpl. lia.
  - rewrite list_to_set_cons, size_union_alt, size_singleton. simpl.
    assert (Hs : (size (list_to_set l ∖ {[x]} : gset jsstring)
                  <= size (list_to_set l : gset jsstring))%nat).
    { apply subseteq_size. apply subseteq_difference_l. reflexivity. }
    lia.
Qed.

Lemma distinct_pos (values : list jsstring) :
  values <> [] -> (1 <= distinct values)%nat.
Proof.
  unfold distinct. destruct values as [| x l]; [congruence |]. intros _.
  rewrite list_to_set_cons, size_union_alt, size_singleton. lia.
Qed.

Lemma distinct_NoDup (values : list jsstring) :
  NoDup values -> distinct values = length values.
Proof. apply size_list_to_set. Qed.

Lemma nonEmptyValues_length (field : TimetableRow -> jsstring)
    (timetableData : list TimetableRow) :
  (length (nonEmptyValues field timetableData) <= length timetableData)%nat.
Proof.
  unfold nonEmptyValues. etransitivity; [apply List.filter_length_le |].
  now rewrite length_map.
Qed.

Lemma nonEmptyValues_course (timetableData : list TimetableRow) :
  length (nonEmptyValues courseName timetableData) =
  totalSessions timetableData.
Proof.
  unfold nonEmptyValues, totalSessions.
  induction timetableData as [| e l IH]; [reflexivity |].
  simpl. destruct (truthy (courseName e) &&
                   negb (str_eqb (courseName e) (js ""))); simpl; auto.
Qed.

(** X6. The figures of the weekly statistics: "Total Sessions" of the
    selected record is the number of entries the parse and filter pass
    returns; for any data the number of unique courses is at most the total
    of sessions, the numbers of faculty members and of venues are at most
    the number of entries, since a name is counted once however often it
    occurs and an empty faculty or venue is not counted; when the pass
    returns an entry at all, at least one course is counted. *)
Theorem X6_statistics_bounds :
  forall timetableData : list TimetableRow,
    let stats := weeklyStatistics timetableData in
    (uniqueCourses stats <= sessions_total stats)%nat /\
    (sessions_total stats <= length timetableData)%nat /\
    (facultyMembers stats <= length timetableData)%nat /\
    (venuesUsed stats <= length timetableData)%nat /\
    (forall st,
        sessions_total (weeklyStatistics (parseSelectedTimetable st)) =
          length (parseSelectedTimetable st) /\
        (parseSelectedTimetable st <> [] ->
         1 <= uniqueCourses (weeklyStatistics (parseSelectedTimetable st)))%nat).
Proof.
  intros data stats. subst stats. simpl.
  split.
  { rewrite <- nonEmptyValues_course. apply distinct_le. }
  split.
  { rewrite <- nonEmptyValues_course. apply nonEmptyValues_length. }
  split.
  { etransitivity; [apply distinct_le | apply nonEmptyValues_length]. }
  split.
  { etransitivity; [apply distinct_le | apply nonEmptyValues_length]. }
  intros st. split; [apply totalSessions_filtered |].
  intros Hne. apply distinct_pos. intros E.
  apply (f_equal (@length jsstring)) in E.
  rewrite nonEmptyValues_course, totalSessions_filtered in E.
  destruct (parseSelectedTimetable st); [congruence | discriminate].
Qed.

(** ** Keys of the grouped index *)

#[local] Set Warnings "-clear-no-such-hyp".

Section GroupKeys.

Implicit Types (g : gmap jsstring (gmap jsstring (list TimetableRow))).
Implicit Types (row e : TimetableRow) (d t : jsstring).

Lemma index_step_dom g row :
  dom (index_step g row) = {[day row]} ∪ dom g.
Proof. rewrite index_step_insert. apply dom_insert_L. Qed.

Lemma fold_group_dom (timetableData : list TimetableRow) g :
  dom (fold_left index_step timetableData g) =
  list_to_set (List.map day timetableData) ∪ dom g.
Proof.
  revert g. induction timetableData as [| row rest IH]; intros g; simpl.
  - set_solver.
  - rewrite IH, index_step_dom. set_solver.
Qed.

(** The time keys under a day, the empty set when the day has no key. *)
Lemma index_step_inner_dom g row d :
  dom (default ∅ (index_step g row !! d)) =
  (if decide (day row = d) then {[time row]} else ∅) ∪
  dom (default ∅ (g !! d)).
Proof.
  rewrite index_step_insert.
  destruct (decide (day row = d)) as [<- | Hd].
  - rewrite lookup_insert_eq. simpl. apply dom_insert_L.
  - rewrite lookup_insert_ne by assumption. set_solver.
Qed.

Lemma fold_group_inner_dom (timetableData : list TimetableRow) g d :
  dom (default ∅ (fold_left index_step timetableData g !! d)) =
  list_to_set
    (List.map time (List.filter (fun e => str_eqb (day e) d) timetableData)) ∪
  dom (default ∅ (g !! d)).
Proof.
  revert g. induction timetableData as [| row rest IH]; intros g; simpl.
  - set_solver.
  - rewrite IH, index_step_inner_dom.
    destruct (decide (day row = d)) as [E | E].
    + apply str_eqb_eq in E. rewrite E. simpl. set_solver.
    + apply str_eqb_neq in E. rewrite E. set_solver.
Qed.

Lemma index_step_inner_nonempty g row :
  (forall d inner, g !! d = Some inner -> inner <> ∅) ->
  forall d inner, index_step g row !! d = Some inner -> inner <> ∅.
Proof.
  intros Hg d inner. rewrite index_step_insert.
  destruct (decide (day row = d)) as [<- | Hd].
  - rewrite lookup_insert_eq. intros E. injection E as <-.
    apply insert_non_empty.
  - rewrite lookup_insert_ne by assumption. apply Hg.
Qed.

Lemma fold_group_inner_nonempty (timetableData : list TimetableRow) g :
  (forall d inner, g !! d = Some inner -> inner <> ∅) ->
  forall d inner,
    fold_left index_step timetableData g !! d = Some inner -> inner <> ∅.
Proof.
  revert g. induction timetableData as [| row rest IH]; intros g Hg; simpl.
  - exact Hg.
  - apply IH, index_step_inner_nonempty, Hg.
Qed.

End GroupKeys.

(** The keys of the index the specification describes are the days and
    times that occur in the data: the day keys are the set of days of the
    entries, the time keys under a day the set of times of the entries of
    that day, and no day key holds an empty map. *)
Lemma weeklyGrid_keys :
  forall timetableData : list TimetableRow,
    let grouped := weeklyGrid timetableData in
    dom grouped = list_to_set (List.map day timetableData) /\
    (forall d, is_Some (grouped !! d) <->
               exists e, In e timetableData /\ day e = d) /\
    (forall d inner,
        grouped !! d = Some inner ->
        inner <> ∅ /\
        dom inner =
          list_to_set
            (List.map time
               (List.filter (fun e => str_eqb (day e) d) timetableData))) /\
    (timetableData = [] -> grouped = ∅).
Proof.
  intros data grouped. subst grouped. unfold weeklyGrid.
  assert (D : dom (fold_left index_step data ∅) =
              (list_to_set (List.map day data) : gset jsstring)).
  { rewrite fold_group_dom. set_solver. }
  split; [exact D |]. split; [| split].
  - intros d. rewrite <- elem_of_dom, D, elem_of_list_to_set.
    rewrite list_elem_of_In, in_map_iff.
    split; intros [e [H1 H2]]; exists e; auto.
  - intros d inner E. split.
    + apply (fold_group_inner_nonempty data ∅) with (d := d); [| exact E].
      intros d' inner' H. now rewrite lookup_empty in H.
    + pose proof (fold_group_inner_dom data ∅ d) as H.
      rewrite E, lookup_empty in H. simpl in H. rewrite H. set_solver.
  - intros ->. reflexivity.
Qed.

(** ** The selection over the life of the page *)

Section Selection.







End Selection.


Lemma run_events_isLoading (evs : list Event) (s : PageState) :
  isLoading (run_events evs s) =
  if existsb (fun ev => match ev with
                        | InitialLoad _ _ => true
                        | _ => false
                        end) evs
  then false else isLoading s.
Proof.
  revert s. induction evs as [| ev evs IH]; intros s; [reflexivity |].
  simpl. rewrite IH. destruct ev; simpl; try reflexivity.
  now destruct (existsb _ evs).
Qed.

(** X9. The spinner stays exactly until an initial load has completed: after
    any sequence of events the page is loading if and only if no initial load
    is among them.  Reloads and clicks never bring the spinner back, and a
    reload that completes before the initial load does not remove it. *)
Theorem X9_spinner_until_initial_load :
  forall (evs : list Event) (searchParams : URLSearchParams.t),
    isLoading (run_events evs initialState) =
      negb (existsb (fun ev => match ev with
                               | InitialLoad _ _ => true
                               | _ => false
                               end) evs) /\
    (renderPage searchParams (run_events evs initialState) = Spinner <->
     forall options records, ~ In (InitialLoad options records) evs).
Proof.
  intros evs sp. rewrite run_events_isLoading. simpl.
  set (p := fun ev => match ev with InitialLoad _ _ => true | _ => false end).
  split; [now destruct (existsb p evs) |].
  unfold renderPage. rewrite run_events_isLoading. fold p. simpl.
  destruct (existsb p evs) eqn:E.
  - split.
    + destruct (length _ =? 0)%nat; discriminate.
    + intros H. apply existsb_exists in E as [ev [Hin Hp]].
      destruct ev; try discriminate. exfalso. exact (H _ _ Hin).
  - split; [| reflexivity]. intros _ options records Hin.
    assert (X : existsb p evs = true)
      by (apply existsb_exists; eexists; split; [exact Hin | reflexivity]).
    congruence.
Qed.

(** X10. The initial load ends with the spinner off on every path.  When the
    call for the options rejects, the timetables are not loaded at all: the
    records, the selection and the two option lists stay as they were and
    the notice "Failed to load data" is raised.  When it resolves without
    success the option lists stay as they were, when it resolves with
    success a missing list is stored as the empty list; in both cases the
    timetables are loaded as by a reload. *)
Theorem X10_loadInitialData_paths :
  forall (options : OptionsOutcome) (records : Outcome) (s : PageState),
    let s' := loadInitialData options records s in
    isLoading s' = false /\
    (options = OptionsRejected ->
     timetables (view s') = timetables (view s) /\
     selectedTimetable (view s') = selectedTimetable (view s) /\
     availableBranches s' = availableBranches s /\
     availableDivisions s' = availableDivisions s /\
     toasts (view s') =
       toasts (view s) ++ [ {| title := js "Error";
                               description := js "Failed to load data";
                               variant := js "destructive" |} ]) /\
    (forall optionsResult,
        options = OptionsResolved optionsResult ->
        view s' = Eff.run (loadTimetables records) (view s) /\
        availableBranches s' =
          (if options_success optionsResult
           then default [] (branches optionsResult)
           else availableBranches s) /\
        availableDivisions s' =
          (if options_success optionsResult
           then default [] (divisions optionsResult)
           else availableDivisions s)).
Proof.
  intros options records s s'. subst s'. unfold loadInitialData.
  split; [reflexivity |]. split.
  - intros ->. simpl. auto.
  - intros optionsResult ->. simpl.
    destruct (options_success optionsResult); simpl; auto.
Qed.

(** ** The filters read from the query *)

Lemma current_filter_nonempty (name : jsstring)
    (searchParams : URLSearchParams.t) :
  truthy (current_filter name searchParams) = true.
Proof.
  unfold current_filter.
  destruct (truthy (or_empty (URLSearchParams.get name searchParams))) eqn:E;
    [exact E | reflexivity].
Qed.

Lemma current_filter_get (name : jsstring) (searchParams : URLSearchParams.t) :
  current_filter name searchParams =
  match URLSearchParams.get name searchParams with
  | Some (c :: r) => c :: r
  | _ => js "all"
  end.
Proof.
  unfold current_filter.
  now destruct (URLSearchParams.get name searchParams) as [[| c r] |].
Qed.

(** X11. The filter values the component reads from the query are never
    empty: a key that is absent, or present with the empty value, reads as
    "all".  Hence the guard of the reloading effect always holds, the data
    service is always called with two defined arguments (the string "all"
    for a filter that is not set, never [undefined]), and the empty page
    always shows the message for selected filters, never the one for a page
    without filters. *)
Theorem X11_filters_never_unset :
  forall searchParams : URLSearchParams.t,
    (forall name, current_filter name searchParams <> js "") /\
    (forall name,
        URLSearchParams.get name searchParams = None \/
        URLSearchParams.get name searchParams = Some (js "") ->
        current_filter name searchParams = js "all") /\
    filterChosen searchParams = true /\
    fetchArguments searchParams =
      (Some (current_filter (js "branch") searchParams),
       Some (current_filter (js "division") searchParams)) /\
    emptyMessage searchParams =
      js "No timetables have been generated for the selected filters yet.".
Proof.
  intros sp.
  split; [intros name; apply truthy_nonempty, current_filter_nonempty |].
  split; [intros name [E | E]; rewrite current_filter_get, E; reflexivity |].
  assert (F : filterChosen sp = true)
    by (unfold filterChosen; now rewrite current_filter_nonempty).
  split; [exact F |]. split.
  - unfold fetchArguments, or_undefined. now rewrite !current_filter_nonempty.
  - unfold emptyMessage. now rewrite F.
Qed.

Lemma update_key_display (name v : jsstring) (p : URLSearchParams.t) :
  current_filter name (update_key name v p) =
  if str_eqb v (js "") then js "all" else v.
Proof.
  rewrite current_filter_get.
  destruct (update_key_frame name v p) as (G & _). rewrite G.
  destruct (str_eqb v (js "all")) eqn:E.
  - apply str_eqb_eq in E. now subst v.
  - now destruct v.
Qed.

Lemma update_key_display_other (name k v : jsstring) (p : URLSearchParams.t) :
  k <> name ->
  current_filter k (update_key name v p) = current_filter k p.
Proof.
  intros Hk. rewrite !current_filter_get.
  destruct (update_key_frame name v p) as (_ & _ & _ & _ & F).
  now rewrite (proj1 (F k Hk)).
Qed.

(** X12. After a change of the branch the branch select shows the value that
    was chosen ("all" when the value is "all" or empty) and the division
    select shows what it showed before; the same holds with the two
    exchanged. *)
Theorem X12_select_shows_choice :
  forall (searchParams : URLSearchParams.t) (v : jsstring),
    current_filter (js "branch") (handleBranchChange v searchParams) =
      (if str_eqb v (js "") then js "all" else v) /\
    current_filter (js "division") (handleBranchChange v searchParams) =
      current_filter (js "division") searchParams /\
    current_filter (js "division") (handleDivisionChange v searchParams) =
      (if str_eqb v (js "") then js "all" else v) /\
    current_filter (js "branch") (handleDivisionChange v searchParams) =
      current_filter (js "branch") searchParams.
Proof.
  intros p v.
  repeat rewrite handleBranchChange_update.
  repeat rewrite handleDivisionChange_update.
  split; [apply update_key_display |].
  split; [apply update_key_display_other; discriminate |].
  split; [apply update_key_display |].
  apply update_key_display_other; discriminate.
Qed.

Lemma set_set (name v w : jsstring) (p : URLSearchParams.t) :
  URLSearchParams.set name w (URLSearchParams.set name v p) =
  URLSearchParams.set name w p.
Proof.
  induction p as [| [n x] p IH]; simpl.
  - replace (str_eqb name name) with true
      by (symmetry; now apply str_eqb_eq).
    reflexivity.
  - destruct (str_eqb n name) eqn:E; simpl; rewrite E.
    + now rewrite USPFacts.delete_idem.
    + now rewrite IH.
Qed.

Lemma update_key_overwrite (name v w : jsstring) (p : URLSearchParams.t) :
  v <> js "all" \/ w = js "all" ->
  update_key name w (update_key name v p) = update_key name w p.
Proof.
  intros H. unfold update_key.
  destruct (str_eqb w (js "all")) eqn:Ew, (str_eqb v (js "all")) eqn:Ev.
  - apply USPFacts.delete_idem.
  - apply USPFacts.delete_set.
  - apply str_eqb_eq in Ev. apply str_eqb_neq in Ew.
    destruct H; contradiction.
  - apply set_set.
Qed.

Lemma update_key_overwrite_get (name v w k : jsstring)
    (p : URLSearchParams.t) :
  URLSearchParams.get k (update_key name w (update_key name v p)) =
  URLSearchParams.get k (update_key name w p).
Proof.
  destruct (update_key_frame name w (update_key name v p))
    as (G1 & _ & _ & _ & F1).
  destruct (update_key_frame name w p) as (G2 & _ & _ & _ & F2).
  destruct (update_key_frame name v p) as (_ & _ & _ & _ & F3).
  destruct (decide (k = name)) as [-> | Hk].
  - now rewrite G1, G2.
  - rewrite (proj1 (F1 k Hk)), (proj1 (F2 k Hk)). apply (proj1 (F3 k Hk)).
Qed.

(** X13. The last change of a filter wins: choosing a branch twice in a row
    leaves the query as the second choice alone would, pair for pair, unless
    the first choice was "all" and the second was not (then the pair of the
    key moves to the end); in every case each key reads the same as after
    the second choice alone.  Choosing the same value again changes
    nothing.  The same holds for the division. *)
Theorem X13_last_change_wins :
  forall (searchParams : URLSearchParams.t) (v w : jsstring),
    (v <> js "all" \/ w = js "all" ->
     handleBranchChange w (handleBranchChange v searchParams) =
       handleBranchChange w searchParams /\
     handleDivisionChange w (handleDivisionChange v searchParams) =
       handleDivisionChange w searchParams) /\
    (forall k,
        URLSearchParams.get k
          (handleBranchChange w (handleBranchChange v searchParams)) =
        URLSearchParams.get k (handleBranchChange w searchParams) /\
        URLSearchParams.get k
          (handleDivisionChange w (handleDivisionChange v searchParams)) =
        URLSearchParams.get k (handleDivisionChange w searchParams)) /\
    handleBranchChange v (handleBranchChange v searchParams) =
      handleBranchChange v searchParams /\
    handleDivisionChange v (handleDivisionChange v searchParams) =
      handleDivisionChange v searchParams.
Proof.
  intros p v w.
  repeat rewrite handleBranchChange_update.
  repeat rewrite handleDivisionChange_update.
  split; [intros H; split; now apply update_key_overwrite |].
  split; [intros k; split; apply update_key_overwrite_get |].
  split; apply update_key_overwrite;
    (destruct (decide (v = js "all")); [now right | now left]).
Qed.

(** X14. The two filters are independent: changing the branch and then the
    division gives a query in which every key reads the same, with the same
    values in the same order, as after changing the division and then the
    branch. *)
Theorem X14_filters_commute :
  forall (searchParams : URLSearchParams.t) (v w k : jsstring),
    URLSearchParams.get k
      (handleDivisionChange w (handleBranchChange v searchParams)) =
    URLSearchParams.get k
      (handleBranchChange v (handleDivisionChange w searchParams)) /\
    URLSearchParams.getAll k
      (handleDivisionChange w (handleBranchChange v searchParams)) =
    URLSearchParams.getAll k
      (handleBranchChange v (handleDivisionChange w searchParams)).
Proof.
  intros p v w k.
  change (URLSearchParams.get k
            (update_key (js "division") w (update_key (js "branch") v p)) =
          URLSearchParams.get k
            (update_key (js "branch") v (update_key (js "division") w p)) /\
          URLSearchParams.getAll k
            (update_key (js "division") w (update_key (js "branch") v p)) =
          URLSearchParams.getAll k
            (update_key (js "branch") v (update_key (js "division") w p))).
  assert (Hbd : js "branch" <> js "division") by discriminate.
  assert (Hdb : js "division" <> js "branch") by discriminate.
  destruct (update_key_frame (js "division") w (update_key (js "branch") v p))
    as (G1 & A1 & _ & _ & F1).
  destruct (update_key_frame (js "branch") v (update_key (js "division") w p))
    as (G2 & A2 & _ & _ & F2).
  destruct (update_key_frame (js "branch") v p) as (G3 & A3 & _ & _ & F3).
  destruct (update_key_frame (js "division") w p) as (G4 & A4 & _ & _ & F4).
  destruct (decide (k = js "branch")) as [-> | Kb].
  - rewrite (proj1 (F1 _ Hbd)), (proj2 (F1 _ Hbd)), G2, A2, G3, A3. auto.
  - destruct (decide (k = js "division")) as [-> | Kd].
    + rewrite (proj1 (F2 _ Hdb)), (proj2 (F2 _ Hdb)), G1, A1, G4, A4. auto.
    + rewrite (proj1 (F1 _ Kd)), (proj2 (F1 _ Kd)).
      rewrite (proj1 (F2 _ Kb)), (proj2 (F2 _ Kb)).
      rewrite (proj1 (F3 _ Kb)), (proj2 (F3 _ Kb)).
      rewrite (proj1 (F4 _ Kd)), (proj2 (F4 _ Kd)). auto.
Qed.

(** ** Cards, reloads and notices *)

Lemma count_true_map {A} (f : A -> bool) (l : list A) :
  length (List.filter (fun b : bool => b) (List.map f l)) =
  list_sum (List.map (fun a => if f a then 1 else 0)%nat l).
Proof.
  induction l as [| a l IH]; [reflexivity |].
  simpl. destruct (f a); simpl; now rewrite IH.
Qed.

Lemma cards_of_selected (t : StoredTimetable) (ts : list StoredTimetable) :
  In t ts -> NoDup (List.map filename ts) ->
  length (List.filter (fun b : bool => b)
            (List.map (cardSelected (Some t)) ts)) = 1%nat.
Proof.
  intros Hin Hnd. rewrite count_true_map.
  change (list_sum
            (List.map (fun a => if cardSelected (Some t) a then 1 else 0)%nat ts))
    with (list_sum
            (List.map (fun a => (fun k => if str_eqb (filename t) k
                                          then 1 else 0)%nat (filename a)) ts)).
  rewrite <- (map_map filename
                (fun k => if str_eqb (filename t) k then 1 else 0)%nat).
  rewrite (list_sum_indicator _ (filename t) (fun _ => 1%nat) Hnd).
  replace (existsb (str_eqb (filename t)) (List.map filename ts)) with true;
    [reflexivity |].
  symmetry. apply existsb_exists. exists (filename t).
  split; [now apply in_map | now apply str_eqb_eq].
Qed.

(** X15. A click on the card of a loaded record selects that record and
    changes neither the list of records nor the notices.  Afterwards a card
    has the border of the selection exactly when its record has the file
    name of the clicked one: the clicked card has it, and it is the only one
    when the file names of the loaded records are distinct; records that
    share the file name are all marked. *)
Theorem X15_click_selects_card :
  forall (v : ViewState) (index : nat) (t : StoredTimetable),
    timetables v !! index = Some t ->
    let v' := clickCard index v in
    let cards := List.map (cardSelected (selectedTimetable v'))
                          (timetables v') in
    selectedTimetable v' = Some t /\
    timetables v' = timetables v /\
    toasts v' = toasts v /\
    cards !! index = Some true /\
    (forall j u, timetables v' !! j = Some u ->
                 (cards !! j = Some true <-> filename u = filename t)) /\
    (NoDup (List.map filename (timetables v)) ->
     length (List.filter (fun b : bool => b) cards) = 1%nat).
Proof.
  intros v index t Ht v' cards. subst cards v'.
  unfold clickCard. rewrite Ht. simpl.
  assert (Self : str_eqb (filename t) (filename t) = true)
    by now apply str_eqb_eq.
  split; [reflexivity |]. split; [reflexivity |]. split; [reflexivity |].
  split.
  { rewrite list_lookup_fmap, Ht. simpl. now rewrite Self. }
  split.
  { intros j u Hu. rewrite list_lookup_fmap, Hu. simpl.
    split.
    - intros E. injection E as E. apply str_eqb_eq in E. now symmetry.
    - intros E. f_equal. apply str_eqb_eq. now symmetry. }
  intros Hnd. apply cards_of_selected; [| exact Hnd].
  apply list_elem_of_In. now apply list_elem_of_lookup_2 in Ht.
Qed.

Lemma X15_click_witness :
  let v := {| timetables := [stored "a.json" [row_monday];
                             stored "b.json" [row_first]];
              selectedTimetable := Some (stored "a.json" [row_monday]);
              toasts := [] |} in
  timetables v !! 1%nat = Some (stored "b.json" [row_first]) /\
  selectedTimetable (clickCard 1 v) = Some (stored "b.json" [row_first]) /\
  List.map (cardSelected (selectedTimetable (clickCard 1 v)))
           (timetables (clickCard 1 v)) !! 1%nat = Some true.
Proof.
  split; [reflexivity |].
  pose proof (X15_click_selects_card
                {| timetables := [stored "a.json" [row_monday];
                                  stored "b.json" [row_first]];
                   selectedTimetable := Some (stored "a.json" [row_monday]);
                   toasts := [] |}
                1%nat (stored "b.json" [row_first]) eq_refl) as H.
  split; [exact (proj1 H) | exact (proj1 (proj2 (proj2 (proj2 H))))].
Defined.

(** X16. How long a selection made by a click lasts: a reload that fails
    keeps it, together with the list of records; a reload that succeeds
    replaces the list by the fetched one and the selection by its first
    record, or by none when it is empty, whatever was selected before. *)
Theorem X16_click_then_reload :
  forall (v : ViewState) (index : nat) (records : Outcome),
    let clicked := clickCard index v in
    let v' := Eff.run (loadTimetables records) clicked in
    match records with
    | Resolved result =>
        if success result
        then timetables v' = data result /\
             selectedTimetable v' = head (data result) /\
             toasts v' = toasts v
        else timetables v' = timetables v /\
             selectedTimetable v' = selectedTimetable clicked
    | Rejected =>
        timetables v' = timetables v /\
        selectedTimetable v' = selectedTimetable clicked
    end.
Proof.
  intros v index records clicked v'. subst v' clicked.
  assert (K : timetables (clickCard index v) = timetables v /\
              toasts (clickCard index v) = toasts v).
  { unfold clickCard. now destruct (timetables v !! index). }
  destruct K as [K1 K2].
  destruct records as [result |]; unfold loadTimetables, Eff.run; simpl.
  - destruct (success result); simpl; [| auto].
    destruct (data result) as [| first rest]; simpl; auto.
  - auto.
Qed.

(** X17. The notice of an unsuccessful load has the title "Error" and the
    destructive variant; its text is the error text of the result when that
    is a non-empty string and "Failed to load timetables" otherwise, so it
    is never empty. *)
Theorem X17_failure_notice :
  forall (result : ApiResult) (v : ViewState),
    success result = false ->
    exists text,
      toasts (Eff.run (loadTimetables (Resolved result)) v) =
        toasts v ++ [ {| title := js "Error";
                         description := text;
                         variant := js "destructive" |} ] /\
      text = match error result with
             | Some (c :: r) => c :: r
             | _ => js "Failed to load timetables"
             end /\
      text <> js "".
Proof.
  intros result v Hs. exists (error_or_default (error result)).
  unfold loadTimetables, Eff.run. rewrite Hs. simpl.
  split; [reflexivity |]. unfold error_or_default.
  destruct (error result) as [[| c r] |]; simpl; split;
    try reflexivity; discriminate.
Qed.

Lemma X17_failure_notice_witness :
  success {| success := false; data := []; error := Some (js "") |} = false /\
  exists text,
    toasts (Eff.run
              (loadTimetables
                 (Resolved {| success := false; data := [];
                              error := Some (js "") |}))
              {| timetables := []; selectedTimetable := None; toasts := [] |}) =
      [] ++ [ {| title := js "Error"; description := text;
                 variant := js "destructive" |} ] /\
    text = js "Failed to load timetables" /\
    text <> js "".
Proof.
  split; [reflexivity |].
  apply (X17_failure_notice
           {| success := false; data := []; error := Some (js "") |}
           {| timetables := []; selectedTimetable := None; toasts := [] |}).
  reflexivity.
Defined.

(** ** The grouping function and Object.prototype *)

Section GroupingOnObjects.

Implicit Types (h : GroupHeap) (row e : TimetableRow) (d t : jsstring).

Lemma plain_key_spec (prototype : gmap jsstring (list TimetableRow)) k :
  plain_key prototype k = true <->
  str_eqb k (js "__proto__") = false /\ inherited_method k = false /\
  prototype !! k = None.
Proof.
  unfold plain_key.
  rewrite !andb_true_iff, !negb_true_iff, bool_decide_eq_true. tauto.
Qed.

(** On keys that the prototype does not answer the callback does what the
    step of the specified grouping does, and leaves the prototype alone. *)
Lemma group_row_plain h row :
  plain_key (prototype_arrays h) (day row) = true ->
  plain_key (prototype_arrays h) (time row) = true ->
  group_row h row =
  Normal {| own_index := index_step (own_index h) row;
            prototype_arrays := prototype_arrays h |}.
Proof.
  intros Hd Ht.
  apply plain_key_spec in Hd as (Hd1 & Hd2 & Hd3).
  apply plain_key_spec in Ht as (Ht1 & Ht2 & Ht3).
  rewrite index_step_insert. unfold group_row, read_day, grid_cell.
  destruct (own_index h !! day row) as [inner |] eqn:Eg; simpl.
  - unfold fill_inner.
    destruct (inner !! time row) as [slot |] eqn:Ei; simpl; [reflexivity |].
    now rewrite Ht1, Ht3, Ht2.
  - rewrite Hd1, Hd3, Hd2. unfold fill_inner. simpl.
    rewrite lookup_empty, Ht1, Ht3, Ht2. simpl.
    now rewrite insert_insert_eq.
Qed.

Lemma group_rows_plain (timetableData : list TimetableRow) h :
  (forall e, In e timetableData ->
             plain_key (prototype_arrays h) (day e) = true /\
             plain_key (prototype_arrays h) (time e) = true) ->
  group_rows timetableData h =
  Normal {| own_index := fold_left index_step timetableData (own_index h);
            prototype_arrays := prototype_arrays h |}.
Proof.
  revert h. induction timetableData as [| row rest IH]; intros h H; simpl.
  - now destruct h.
  - destruct (H row (or_introl eq_refl)) as [Hd Ht].
    rewrite (group_row_plain h row Hd Ht).
    rewrite IH; [reflexivity |]. intros e He. apply H. now right.
Qed.


Lemma own_cells_sound_prototype (timetableData : list TimetableRow) h
    (prototype : gmap jsstring (list TimetableRow)) :
  own_cells_sound timetableData h ->
  own_cells_sound timetableData
    {| own_index := own_index h; prototype_arrays := prototype |}.
Proof. intros Hh. exact Hh. Qed.




End GroupingOnObjects.

(** C5. Two records whose rows pass the filter, on a fresh page.  A Monday
    row with the time "constructor": the read [grouped.Monday.constructor]
    finds the inherited function, no array is made and the call of [push]
    throws a TypeError, so no index is returned.  A row with the day
    "__proto__" at "9:00-10:00" followed by a Monday row at the same time:
    the array is written to [Object.prototype], the object under Monday
    stays without an own key, and [grouped.Monday["9:00-10:00"]] is that
    array with both rows, one of them not a Monday row, whereas the table's
    own filter gives the Monday row alone; the array is still there at the
    next call and grows. *)
Theorem C5_inherited_keys_break_grouping :
  parseSelectedTimetable (Some (stored "tt.json" [row_constructor])) =
    [parseRow row_constructor] /\
  groupTimetableByDayAndTime ∅ [parseRow row_constructor] = TypeError ∅ /\
  parseSelectedTimetable (Some (stored "tt.json" [row_proto; row_nine])) =
    [parseRow row_proto; parseRow row_nine] /\
  groupTimetableByDayAndTime ∅ [parseRow row_proto; parseRow row_nine] =
    Normal {| own_index := {[ js "Monday" := ∅ ]};
              prototype_arrays :=
                {[ js "9:00-10:00" :=
                     [parseRow row_proto; parseRow row_nine] ]} |} /\
  read_cell {| own_index := {[ js "Monday" := ∅ ]};
               prototype_arrays :=
                 {[ js "9:00-10:00" :=
                      [parseRow row_proto; parseRow row_nine] ]} |}
            (js "Monday") (js "9:00-10:00") =
    Some [parseRow row_proto; parseRow row_nine] /\
  day (parseRow row_proto) <> js "Monday" /\
  daySlots [parseRow row_proto; parseRow row_nine]
           (js "Monday") (js "9:00-10:00") = [parseRow row_nine] /\
  groupTimetableByDayAndTime
    {[ js "9:00-10:00" := [parseRow row_proto; parseRow row_nine] ]}
    [parseRow row_nine] =
    Normal {| own_index := {[ js "Monday" := ∅ ]};
              prototype_arrays :=
                {[ js "9:00-10:00" :=
                     [parseRow row_proto; parseRow row_nine;
                      parseRow row_nine] ]} |}.
Proof.
  split; [reflexivity |]. split; [reflexivity |]. split; [reflexivity |].
  split; [vm_compute; reflexivity |]. split; [vm_compute; reflexivity |].
  split; [discriminate |]. split; [reflexivity |].
  vm_compute. reflexivity.
Qed.

(** X7. When no entry has a day or a time that [Object.prototype] answers
    (neither "__proto__", nor the name of one of its methods, nor a name an
    earlier call left an array under), the function returns, leaves the
    prototype as it found it, and the returned object is the index the
    specification describes: its day keys are the days of the entries, the
    time keys under a day the times of that day's entries, no day key holds
    an empty object, and the array under a pair of keys is the sequence of
    the entries with that day and time, in the order of the data. *)
Theorem X7_plain_keys_grouping :
  forall (prototype : gmap jsstring (list TimetableRow))
         (timetableData : list TimetableRow),
    (forall e, In e timetableData ->
               plain_key prototype (day e) = true /\
               plain_key prototype (time e) = true) ->
    exists grouped,
      groupTimetableByDayAndTime prototype timetableData =
        Normal {| own_index := grouped; prototype_arrays := prototype |} /\
      grouped = weeklyGrid timetableData /\
      dom grouped = list_to_set (List.map day timetableData) /\
      (forall d inner,
          grouped !! d = Some inner ->
          inner <> ∅ /\
          dom inner =
            list_to_set
              (List.map time
                 (List.filter (fun e => str_eqb (day e) d) timetableData)) /\
          forall t slot,
            inner !! t = Some slot ->
            slot = daySlots timetableData d t /\ slot <> []) /\
      (forall e, In e timetableData ->
                 exists inner slot,
                   grouped !! day e = Some inner /\
                   inner !! time e = Some slot /\ In e slot).
Proof.
  intros prototype data H. exists (weeklyGrid data).
  split.
  { unfold groupTimetableByDayAndTime. now rewrite group_rows_plain. }
  split; [reflexivity |].
  destruct (weeklyGrid_keys data) as (D & _ & K & _).
  destruct (weeklyGrid_cells data) as (_ & C & I).
  split; [exact D |]. split; [| exact I].
  intros d inner E. destruct (K d inner E) as [Hne Hdom].
  split; [exact Hne |]. split; [exact Hdom |].
  intros t slot Et. destruct (C d inner t slot E Et) as (H1 & H2 & _). auto.
Qed.

Lemma X7_plain_keys_witness :
  (forall e, In e [parseRow row_first; parseRow row_second] ->
             plain_key ∅ (day e) = true /\ plain_key ∅ (time e) = true) /\
  exists grouped,
    groupTimetableByDayAndTime ∅ [parseRow row_first; parseRow row_second] =
      Normal {| own_index := grouped; prototype_arrays := ∅ |} /\
    grouped = weeklyGrid [parseRow row_first; parseRow row_second] /\
    dom grouped =
      list_to_set (List.map day [parseRow row_first; parseRow row_second]) /\
    (forall d inner,
        grouped !! d = Some inner ->
        inner <> ∅ /\
        dom inner =
          list_to_set
            (List.map time
               (List.filter (fun e => str_eqb (day e) d)
                            [parseRow row_first; parseRow row_second])) /\
        forall t slot,
          inner !! t = Some slot ->
          slot = daySlots [parseRow row_first; parseRow row_second] d t /\
          slot <> []) /\
    (forall e, In e [parseRow row_first; parseRow row_second] ->
               exists inner slot,
                 grouped !! day e = Some inner /\
                 inner !! time e = Some slot /\ In e slot).
Proof.
  assert (P : forall e, In e [parseRow row_first; parseRow row_second] ->
                        plain_key ∅ (day e) = true /\
                        plain_key ∅ (time e) = true).
  { intros e [<- | [<- | []]]; split; reflexivity. }
  split; [exact P |].
  exact (X7_plain_keys_grouping ∅ [parseRow row_first; parseRow row_second] P).
Defined.

(** X18. A row of the selected record that passes the filter has a class cell
    in the table body exactly when its day, as cleaned of asterisks and
    white space, is one of the five columns and its time is one of the slots
    other than "12:00-1:00".  Then the body has the row of its time, and in
    it, in the column of its day, a class cell that is drawn from entries
    that include the parsed row and stands for all of them.  Otherwise no
    cell of the body in the row of its time and the column of its day is a
    class cell. *)
Theorem X18_kept_row_in_table :
  forall (record : StoredTimetable) (table : Table)
         (row : list (option jsstring)),
    timetable record = Some table ->
    In row (rows table) ->
    keepRow (parseRow row) = true ->
    let timetableData := parseSelectedTimetable (Some record) in
    let e := parseRow row in
    In e timetableData /\
    (in_grid e = true ->
     exists cells i c,
       In (time e, cells) (renderBody timetableData) /\
       days !! i = Some (day e) /\
       cells !! i = Some c /\
       is_class c = true /\
       In e (daySlots timetableData (day e) (time e)) /\
       entries_shown c = length (daySlots timetableData (day e) (time e))) /\
    (in_grid e = false ->
     forall cells i c,
       In (time e, cells) (renderBody timetableData) ->
       days !! i = Some (day e) ->
       cells !! i = Some c ->
       is_class c = false).
Proof.
  intros record table row Ht Hrow K data e. subst data e.
  set (e := parseRow row).
  set (data := parseSelectedTimetable (Some record)).
  assert (Hin : In e data).
  { unfold data, parseSelectedTimetable. simpl. rewrite Ht.
    apply filterRows_In. split; [now apply in_map | exact K]. }
  assert (Hslot : In e (daySlots data (day e) (time e)))
    by (apply daySlots_In; auto).
  clearbody e data.
  split; [exact Hin |]. split.
  - intros G. unfold in_grid in G.
    apply andb_true_iff in G as [G Hl]. apply andb_true_iff in G as [Gd Gt].
    apply negb_true_iff in Hl.
    apply existsb_exists in Gd as [d [Hd Ed]]. apply str_eqb_eq in Ed.
    apply existsb_exists in Gt as [t [Htm Et]]. apply str_eqb_eq in Et.
    subst d t.
    apply list_elem_of_In, list_elem_of_lookup in Hd as [i Hi].
    exists (List.map (renderCell data (time e)) days), i,
           (renderCell data (time e) (day e)).
    split.
    { unfold renderBody.
      apply (in_map (fun t => (t, List.map (renderCell data t) days))
                    timeSlots (time e) Htm). }
    split; [exact Hi |].
    split; [now rewrite list_lookup_fmap, Hi |].
    rewrite entries_shown_cell, renderCell_cases, Hl.
    destruct (daySlots data (day e) (time e)) as [| m [| x r]];
      [contradiction | auto | auto].
  - intros G cells i c Hbody Hi Hc.
    destruct (renderBody_In _ _ _ Hbody) as [Htm Ec]. subst cells.
    rewrite list_lookup_fmap, Hi in Hc. simpl in Hc. injection Hc as <-.
    rewrite renderCell_cases.
    destruct (str_eqb (time e) (js "12:00-1:00")) eqn:Hl; [reflexivity |].
    exfalso. unfold in_grid in G. rewrite Hl in G.
    change (negb false) with true in G.
    rewrite andb_true_r in G. apply andb_false_iff in G as [G | G].
    + assert (X : existsb (str_eqb (day e)) days = true).
      { apply existsb_exists. exists (day e). split.
        - apply list_elem_of_In, list_elem_of_lookup. eauto.
        - now apply str_eqb_eq. }
      congruence.
    + assert (X : existsb (str_eqb (time e)) timeSlots = true).
      { apply existsb_exists. exists (time e). split; [exact Htm |].
        now apply str_eqb_eq. }
      congruence.
Qed.

Lemma X18_kept_row_witness :
  timetable (stored "tt.json" [row_saturday; row_monday]) =
    Some {| headers := []; rows := [row_saturday; row_monday] |} /\
  In row_monday [row_saturday; row_monday] /\
  keepRow (parseRow row_monday) = true /\
  In (parseRow row_monday)
     (parseSelectedTimetable
        (Some (stored "tt.json" [row_saturday; row_monday]))) /\
  (in_grid (parseRow row_monday) = true ->
   exists cells i c,
     In (time (parseRow row_monday), cells)
        (renderBody
           (parseSelectedTimetable
              (Some (stored "tt.json" [row_saturday; row_monday])))) /\
     days !! i = Some (day (parseRow row_monday)) /\
     cells !! i = Some c /\
     is_class c = true /\
     In (parseRow row_monday)
        (daySlots
           (parseSelectedTimetable
              (Some (stored "tt.json" [row_saturday; row_monday])))
           (day (parseRow row_monday)) (time (parseRow row_monday))) /\
     entries_shown c =
       length
         (daySlots
            (parseSelectedTimetable
               (Some (stored "tt.json" [row_saturday; row_monday])))
            (day (parseRow row_monday)) (time (parseRow row_monday)))) /\
  (in_grid (parseRow row_monday) = false ->
   forall cells i c,
     In (time (parseRow row_monday), cells)
        (renderBody
           (parseSelectedTimetable
              (Some (stored "tt.json" [row_saturday; row_monday])))) ->
     days !! i = Some (day (parseRow row_monday)) ->
     cells !! i = Some c ->
     is_class c = false).
Proof.
  split; [reflexivity |]. split; [right; left; reflexivity |].
  split; [reflexivity |].
  apply (X18_kept_row_in_table
           (stored "tt.json" [row_saturday; row_monday])
           {| headers := []; rows := [row_saturday; row_monday] |}
           row_monday).
  - reflexivity.
  - right. left. reflexivity.
  - reflexivity.
Defined.


